(** * HCP interaction logging: field normalisation and chat/form synchronisation

    A shallow embedding of the client-side engine of the repository:

    - [HCPInteractionForm.js]: [handleFormUpdate] (alias table, value tables,
      form write, highlight flag and its 3000 ms timer) and [handleSubmit]
      (validation and the create payload);
    - [AIAssistantChat.js]: the [chatResponse] effect (parse fallback, the four
      envelope branches, the last-processed guard) and [handleSendMessage];
    - [interactionsSlice.js]: the reducer cases of [chatWithAgentAsync].

    JavaScript values are modelled by [jsval]; a call that can raise returns a
    [result]; React state is threaded explicitly; time is a natural number of
    milliseconds. A string holds its text in UTF-8. *)

From Stdlib Require Import Arith Ascii String List Bool Lia.
From stdpp Require Import base option gmap strings list.
Import ListNotations.
Local Open Scope string_scope.
Set Warnings "-register-all".

(** ** JavaScript values *)

Module Js.

(** Objects of the runtime that a JSON payload cannot contain but that a
    property read on an object literal can return: the properties every
    object literal inherits from [Object.prototype]. *)
Inductive native :=
| ObjectCtor                      (* Object, read as  o.constructor *)
| ObjectProto                     (* Object.prototype, read as  o.__proto__ *)
| ProtoMethod (name : string).    (* Object.prototype.toString and the like *)

(** A number is held as the text [Number.prototype.toString] gives it, which
    tells two numbers apart exactly when [===] does: the program tests a
    payload number for truthiness, compares it and prints it, and computes
    nothing with it. A zero of either sign is the text 0; JSON has no NaN. *)
Inductive jsval :=
| JUndefined
| JNull
| JBool (b : bool)
| JNum (text : string)
| JStr (s : string)
| JArr (items : list jsval)
| JObj (props : list (string * jsval))
| JNative (n : native).

Inductive exn := TypeError | SyntaxError.

(** What a call comes to: it returns, it raises, or it raises after it has
    called state setters, and then [a] is the state they leave to a caller
    that catches the exception. *)
Inductive result (A : Type) :=
| Ok (a : A)
| Throw (e : exn)
| ThrowAfter (e : exn) (a : A).
Arguments Ok {A} a.
Arguments Throw {A} e.
Arguments ThrowAfter {A} e a.

(** A raise that is not caught goes through the rest of the caller. *)
Definition bind {A B} (r : result A) (k : A -> result B) : result B :=
  match r with
  | Ok a => k a
  | Throw e | ThrowAfter e _ => Throw e
  end.

Notation "'try!' x := r 'in' k" := (bind r (fun x => k))
  (at level 10, x name, r at level 100, k at level 200).

(** ToBoolean. *)
Definition truthy (v : jsval) : bool :=
  match v with
  | JUndefined | JNull => false
  | JBool b => b
  | JNum text => negb (text =? "0")
  | JStr s => negb (s =? EmptyString)
  | JArr _ | JObj _ | JNative _ => true
  end.

(** [a || b] *)
Definition js_or (a b : jsval) : jsval := if truthy a then a else b.

(** [v === 'lit'] for a string literal. *)
Definition is_str (v : jsval) (lit : string) : bool :=
  match v with
  | JStr s => s =? lit
  | _ => false
  end.

(** [typeof v === 'string'] *)
Definition is_string (v : jsval) : bool :=
  match v with
  | JStr _ => true
  | _ => false
  end.

(** The text of the given bytes. *)
Definition bytes (codes : list nat) : string :=
  fold_right (fun n s => String (ascii_of_nat n) s) EmptyString codes.

(** [String.prototype.toLowerCase]. The program uses the result for one
    thing, to look a key up in a table whose keys are ASCII, so what is
    modelled is every character that lowers to an ASCII one: the letters A
    to Z, and the Kelvin sign U+212A (the bytes E2 84 AA), which lowers to
    k. Every other character outside ASCII lowers to text outside ASCII
    and is left as it is: the result then differs from the one of the
    runtime, but equals no key either way. *)
Definition lower_ascii (c : ascii) : ascii :=
  let n := nat_of_ascii c in
  if (65 <=? n)%nat && (n <=? 90)%nat then ascii_of_nat (n + 32) else c.

Definition is_byte (c : ascii) (n : nat) : bool := (nat_of_ascii c =? n)%nat.

Fixpoint toLowerCase (s : string) : string :=
  match s with
  | EmptyString => EmptyString
  | String c r =>
      match r with
      | String c2 (String c3 r') =>
          if is_byte c 226 && is_byte c2 132 && is_byte c3 170
          then String "k" (toLowerCase r')
          else String (lower_ascii c) (toLowerCase r)
      | _ => String (lower_ascii c) (toLowerCase r)
      end
  end.

(** [v.toLowerCase()]: only a string has the method; on [null] and
    [undefined] the property read raises, on any other value the call of a
    non-function does. *)
Definition call_toLowerCase (v : jsval) : result string :=
  match v with
  | JStr s => Ok (toLowerCase s)
  | _ => Throw TypeError
  end.

(** The white space and the line terminators of the language, in UTF-8:
    TAB, LF, VT, FF, CR, SP, U+00A0, U+1680, U+2000 to U+200A, U+2028,
    U+2029, U+202F, U+205F, U+3000 and U+FEFF. *)
Definition white_space : list string :=
  map bytes
    ([ [9]; [10]; [11]; [12]; [13]; [32];
       [194; 160];
       [225; 154; 128];
       [226; 128; 168]; [226; 128; 169];
       [226; 128; 175]; [226; 129; 159];
       [227; 128; 128];
       [239; 187; 191] ]
     ++ map (fun n => [226; 128; 128 + n]) (seq 0 11))%list.

(** [s] without the prefix [p], if it starts with it. *)
Fixpoint drop_prefix (p s : string) : option string :=
  match p, s with
  | EmptyString, _ => Some s
  | String a p', String b s' =>
      if Ascii.eqb a b then drop_prefix p' s' else None
  | _, _ => None
  end.

Definition drop_space (spaces : list string) (s : string) : option string :=
  fold_right (fun w r => match drop_prefix w s with
                         | Some s' => Some s'
                         | None => r
                         end) None spaces.

(** Each round drops one character, so as many rounds as [s] has bytes drop
    them all. *)
Fixpoint drop_spaces (spaces : list string) (rounds : nat) (s : string)
  : string :=
  match rounds with
  | 0 => s
  | S n =>
      match drop_space spaces s with
      | Some s' => drop_spaces spaces n s'
      | None => s
      end
  end.

Fixpoint string_rev_onto (s acc : string) : string :=
  match s with
  | EmptyString => acc
  | String c r => string_rev_onto r (String c acc)
  end.

Definition string_rev (s : string) : string := string_rev_onto s EmptyString.

Definition trim_start (s : string) : string :=
  drop_spaces white_space (String.length s) s.

Definition trim_end (s : string) : string :=
  string_rev (drop_spaces (map string_rev white_space) (String.length s)
                          (string_rev s)).

(** [String.prototype.trim] *)
Definition trim (s : string) : string := trim_end (trim_start s).

(** Own properties of an object: the first entry of the key. *)
Fixpoint own {A} (props : list (string * A)) (k : string) : option A :=
  match props with
  | [] => None
  | (k', v) :: rest => if k' =? k then Some v else own rest k
  end.

(** The properties of [Object.prototype], which every object literal and
    every parsed JSON object inherits. *)
Definition proto_methods : list string :=
  [ "__defineGetter__"; "__defineSetter__"; "hasOwnProperty";
    "__lookupGetter__"; "__lookupSetter__"; "isPrototypeOf";
    "propertyIsEnumerable"; "toString"; "valueOf"; "toLocaleString" ].

Definition inherited (k : string) : option native :=
  if k =? "constructor" then Some ObjectCtor
  else if k =? "__proto__" then Some ObjectProto
  else if existsb (String.eqb k) proto_methods then Some (ProtoMethod k)
  else None.

(** [o[k]] on an object with the given own properties. *)
Definition obj_get (props : list (string * jsval)) (k : string) : jsval :=
  match own props k with
  | Some v => v
  | None =>
      match inherited k with
      | Some n => JNative n
      | None => JUndefined
      end
  end.

(** [v.k]: raises on [null] and [undefined]; a primitive, an array or a
    function has none of the names this program reads
    ([response_type], [field_updates], [message], [field], [value]). *)
Definition get (v : jsval) (k : string) : result jsval :=
  match v with
  | JUndefined | JNull => Throw TypeError
  | JObj props => Ok (obj_get props k)
  | _ => Ok JUndefined
  end.

(** ToString, as template literals, computed property keys and [JSON.parse]
    apply it. It raises on an object that has a property [toString] of its
    own: a parsed value is no function, so the method is not called, and
    [valueOf], inherited or not, gives no primitive either. An array prints
    its elements, and raises when one of them does. *)
Fixpoint prints (v : jsval) : bool :=
  match v with
  | JArr items => forallb prints items
  | JObj props => negb (existsb (fun kv => fst kv =? "toString") props)
  | _ => true
  end.

(** The text ToString gives where it gives one, that is where [prints]
    holds. The text of a built-in function is the one V8 prints. *)
Definition native_to_string (n : native) : string :=
  match n with
  | ObjectCtor => "function Object() { [native code] }"
  | ObjectProto => "[object Object]"
  | ProtoMethod name => "function " ++ name ++ "() { [native code] }"
  end.

Fixpoint to_string (v : jsval) : string :=
  match v with
  | JUndefined => "undefined"
  | JNull => "null"
  | JBool true => "true"
  | JBool false => "false"
  | JNum text => text
  | JStr s => s
  | JArr items =>
      let elem x :=
        match x with
        | JUndefined | JNull => EmptyString
        | _ => to_string x
        end in
      String.concat "," (map elem items)
  | JObj _ => "[object Object]"
  | JNative n => native_to_string n
  end.

(** ToString as a call: the text, or the TypeError. *)
Definition call_to_string (v : jsval) : result string :=
  if prints v then Ok (to_string v) else Throw TypeError.

End Js.
Import Js.

(** ** The form: [HCPInteractionForm.js] *)

Module Form.

(** The canonical fields: the keys of the [formData] state. *)
Definition canonical_fields : list string :=
  [ "hcpName"; "interactionType"; "date"; "time"; "attendees";
    "topicsDiscussed"; "materialsShared"; "samplesDistributed";
    "hcpSentiment"; "outcomes"; "followUpActions" ].

(** The alias table of [handleFormUpdate], in source order. *)
Definition fieldMapping : list (string * jsval) :=
  [ ("sentiment", JStr "hcpSentiment");
    ("interaction_type", JStr "interactionType");
    ("summary", JStr "outcomes");
    ("key_discussion_points", JStr "topicsDiscussed");
    ("materials_shared", JStr "materialsShared");
    ("samples_distributed", JStr "samplesDistributed");
    ("follow_up_actions", JStr "followUpActions");
    ("attendees", JStr "attendees");
    ("date", JStr "date");
    ("time", JStr "time");
    ("hcp_name", JStr "hcpName");
    ("materials", JStr "materialsShared");
    ("samples", JStr "samplesDistributed");
    ("follow_up", JStr "followUpActions");
    ("topics", JStr "topicsDiscussed");
    ("discussion", JStr "topicsDiscussed");
    ("outcomes", JStr "outcomes");
    ("results", JStr "outcomes");
    ("type", JStr "interactionType");
    ("interaction_date", JStr "date");
    ("interaction_time", JStr "time");
    ("name", JStr "hcpName");
    ("doctor", JStr "hcpName");
    ("hcp", JStr "hcpName");
    ("feeling", JStr "hcpSentiment");
    ("mood", JStr "hcpSentiment");
    ("reaction", JStr "hcpSentiment");
    ("when", JStr "date");
    ("meeting_date", JStr "date");
    ("meeting_time", JStr "time") ].

Definition sentimentMap : list (string * jsval) :=
  [ ("positive", JStr "Positive");
    ("good", JStr "Positive");
    ("happy", JStr "Positive");
    ("pleased", JStr "Positive");
    ("satisfied", JStr "Positive");
    ("neutral", JStr "Neutral");
    ("okay", JStr "Neutral");
    ("fine", JStr "Neutral");
    ("average", JStr "Neutral");
    ("negative", JStr "Negative");
    ("bad", JStr "Negative");
    ("unhappy", JStr "Negative");
    ("dissatisfied", JStr "Negative");
    ("concerned", JStr "Negative") ].

Definition typeMap : list (string * jsval) :=
  [ ("meeting", JStr "Meeting");
    ("call", JStr "Call");
    ("phone", JStr "Call");
    ("email", JStr "Email");
    ("visit", JStr "Visit");
    ("conference", JStr "Conference");
    ("other", JStr "Other") ].

(** The first half of [handleFormUpdate]: the form field and the value it
    is about to write. [fieldMapping[field.toLowerCase()] || field], then the
    two value tables, each guarded by the resolved field. *)
Definition normalize (field value : jsval) : result (jsval * jsval) :=
  try! k := call_toLowerCase field in
  let formFieldName := js_or (obj_get fieldMapping k) field in
  try! transformedValue :=
    (if is_str formFieldName "hcpSentiment"
     then try! l := call_toLowerCase value in
          Ok (js_or (obj_get sentimentMap l) value)
     else Ok value) in
  try! transformedValue :=
    (if is_str formFieldName "interactionType"
     then try! l := call_toLowerCase value in
          Ok (js_or (obj_get typeMap l) value)
     else Ok transformedValue) in
  Ok (formFieldName, transformedValue).

(** The state of the form component: the field values, the highlight flags
    and the pending [setTimeout] callbacks, each with the instant it is due
    and the field whose flag it clears. *)
Record form := {
  formData : gmap string jsval;
  updatedFields : gmap string bool;
  timers : list (nat * string)
}.

Definition highlight_ms : nat := 3000.

(** Lines 124-141: the two setters and the timer. The computed key
    [[formFieldName]] is the property key of the resolved field, which is a
    string or a built-in of [Object.prototype] and always prints. *)
Definition write (now : nat) (formFieldName transformedValue : jsval)
    (f : form) : form :=
  let key := to_string formFieldName in
  {| formData := <[key := transformedValue]> (formData f);
     updatedFields := <[key := true]> (updatedFields f);
     timers := timers f ++ [(now + highlight_ms, key)] |}.

(** Line 144: the text of the last logging line, a template literal. *)
Definition update_log (field formFieldName transformedValue : jsval)
  : result string :=
  try! a := call_to_string field in
  try! b := call_to_string formFieldName in
  try! c := call_to_string transformedValue in
  Ok ("Form updated: " ++ a ++ " -> " ++ b ++ " = " ++ c).

(** [handleFormUpdate(field, value)] called at instant [now]. Both
    [toLowerCase] calls come before the first state setter, so a call that
    raises there has changed nothing. The other logging lines pass their
    values to [console.log] as they are; the last one prints them into a
    text, after the setters: when that raises, the state is written. *)
Definition handleFormUpdate (now : nat) (field value : jsval) (f : form)
  : result form :=
  try! p := normalize field value in
  let f' := write now (fst p) (snd p) f in
  match update_log field (fst p) (snd p) with
  | Ok _ => Ok f'
  | _ => ThrowAfter TypeError f'
  end.

(** A timer callback: [setUpdatedFields(prev => ({...prev, [k]: false}))]. *)
Definition expire (k : string) (flags : gmap string bool) : gmap string bool :=
  <[k := false]> flags.

(** The clock reaches [t]: every callback due by then runs, in the order the
    timers were set; the others stay pending. *)
Definition advance (t : nat) (f : form) : form :=
  let due := List.filter (fun p => (fst p <=? t)%nat) (timers f) in
  {| formData := formData f;
     updatedFields := foldl (fun flags p => expire (snd p) flags)
                            (updatedFields f) due;
     timers := List.filter (fun p => negb (fst p <=? t)%nat) (timers f) |}.

(** The field is highlighted: [updatedFields[k]] is truthy. *)
Definition highlighted (f : form) (k : string) : bool :=
  match updatedFields f !! k with
  | Some b => b
  | None => false
  end.

(** The initial state; the date and time come from the clock of the host. *)
Definition initialFormData (today clock : string) : gmap string jsval :=
  list_to_map
    [ ("hcpName", JStr EmptyString); ("interactionType", JStr EmptyString);
      ("date", JStr today); ("time", JStr clock);
      ("attendees", JStr EmptyString); ("topicsDiscussed", JStr EmptyString);
      ("materialsShared", JStr EmptyString);
      ("samplesDistributed", JStr EmptyString);
      ("hcpSentiment", JStr "Neutral"); ("outcomes", JStr EmptyString);
      ("followUpActions", JStr EmptyString) ].

Definition initial (today clock : string) : form :=
  {| formData := initialFormData today clock;
     updatedFields := ∅;
     timers := [] |}.

(** [formData.k] for the names [handleSubmit] reads, none of them inherited. *)
Definition field (fd : gmap string jsval) (k : string) : jsval :=
  default JUndefined (fd !! k).

(** [handleSubmit] up to the dispatch: nothing while a submission is in
    flight, an alert when validation fails, else the payload handed to
    [logInteractionAsync], as the object literal lists it. *)
Inductive submission :=
| Ignored
| Alert (text : string)
| Dispatched (interactionData : list (string * jsval)).

Definition call_trim (v : jsval) : result string :=
  match v with
  | JStr s => Ok (trim s)
  | _ => Throw TypeError
  end.

Definition handleSubmit (isSubmitting : bool) (fd : gmap string jsval)
  : result submission :=
  if isSubmitting then Ok Ignored
  else if negb (truthy (field fd "hcpName")) then
    Ok (Alert "Please enter an HCP name.")
  else
    try! name := call_trim (field fd "hcpName") in
    if name =? EmptyString then Ok (Alert "Please enter an HCP name.")
    else if negb (truthy (field fd "interactionType")) then
      Ok (Alert "Please select an interaction type.")
    else
      Ok (Dispatched
            [ ("hcp_name", JStr name);
              ("interaction_date", field fd "date");
              ("interaction_time", field fd "time");
              ("interaction_type", field fd "interactionType");
              ("attendees", field fd "attendees");
              ("summary", field fd "outcomes");
              ("key_discussion_points", field fd "topicsDiscussed");
              ("materials_shared", field fd "materialsShared");
              ("samples_distributed", field fd "samplesDistributed");
              ("sentiment", field fd "hcpSentiment");
              ("follow_up_actions", field fd "followUpActions") ]).

End Form.
Import Form.

(** ** The assistant: [AIAssistantChat.js] and the chat cases of the slice *)

Module Chat.

(** A response as the store holds it: the payload, and for an object the
    identity [ref] that [===] compares. *)
Record response := { ref : nat; payload : jsval }.

Definition is_reference (v : jsval) : bool :=
  match v with
  | JArr _ | JObj _ | JNative _ => true
  | _ => false
  end.

(** [a === b]: identity on objects, the value on primitives. *)
Definition strict_eq (a b : response) : bool :=
  match payload a, payload b with
  | JUndefined, JUndefined => true
  | JNull, JNull => true
  | JBool x, JBool y => Bool.eqb x y
  | JNum x, JNum y => x =? y
  | JStr x, JStr y => x =? y
  | x, y => is_reference x && is_reference y && (ref a =? ref b)%nat
  end.

Inductive role := user | assistant.

Record message := {
  type : role;
  content : jsval;
  timestamp : nat;
  isInitial : bool;
  isFormUpdate : bool;
  isError : bool;
  responseType : option string
}.

(** The component state: [messages], [inputMessage], [isLoading] and the ref
    [lastProcessedResponse] ([None] is [null]). *)
Record chat := {
  messages : list message;
  inputMessage : string;
  isLoading : bool;
  lastProcessedResponse : option response
}.

Definition plain (now : nat) (text : jsval) : message :=
  {| type := assistant; content := text; timestamp := now;
     isInitial := false; isFormUpdate := false; isError := false;
     responseType := None |}.

Definition dquote : string := bytes [34].
Definition line_feed : string := bytes [10].
Definition bullet : string := bytes [226; 128; 162].

(** The greeting the log starts with. *)
Definition greeting : string :=
  "Hi! I'm your intelligent AI assistant with LLM-based decision making. "
  ++ "I understand your queries, think about what you want to do, and "
  ++ "choose the right tool automatically. Just describe what you want "
  ++ "naturally - no special commands needed!" ++ line_feed ++ line_feed
  ++ "Examples:" ++ line_feed
  ++ bullet ++ " " ++ dquote ++ "I met with Dr. Smith today about cardiology"
  ++ dquote ++ " (I'll populate the form)" ++ line_feed
  ++ bullet ++ " " ++ dquote
  ++ "Update Dr. Johnson's meeting to positive sentiment"
  ++ dquote ++ " (I'll edit the interaction)" ++ line_feed
  ++ bullet ++ " " ++ dquote ++ "Show me all interactions with Dr. Brown"
  ++ dquote ++ " (I'll get the history)" ++ line_feed
  ++ bullet ++ " " ++ dquote ++ "Analyze my performance this month"
  ++ dquote ++ " (I'll generate insights)".

Definition initial (now : nat) : chat :=
  {| messages := [ {| type := assistant; content := JStr greeting;
                      timestamp := now; isInitial := true;
                      isFormUpdate := false; isError := false;
                      responseType := None |} ];
     inputMessage := EmptyString;
     isLoading := false;
     lastProcessedResponse := None |}.

Section Assistant.

(** [JSON.parse] of the runtime: [None] when it raises a SyntaxError. *)
Variable JSON_parse : string -> option jsval.

(** The [onFormUpdate] prop, acting on the state of the parent component;
    [None] when the prop is not passed. *)
Context {Parent : Type}.
Variable onFormUpdate : option (jsval -> jsval -> Parent -> result Parent).

(** Lines 74-81: a string payload is parsed, and wrapped as a plain message
    when it does not parse. *)
Definition parse_payload (chatResponse : jsval) : jsval :=
  match chatResponse with
  | JStr s =>
      match JSON_parse s with
      | Some parsed => parsed
      | None => JObj [("message", JStr s)]
      end
  | v => v
  end.

(** Lines 92-100: [field_updates.forEach]. The reads [update.field] and
    [update.value] of the logging line stand before the [try], the call of
    [onFormUpdate] inside it; the [catch] keeps the state that a call has
    written before it raised. *)
Fixpoint forEach_guarded (h : jsval -> jsval -> Parent -> result Parent)
    (updates : list jsval) (p : Parent) : result Parent :=
  match updates with
  | [] => Ok p
  | update :: rest =>
      try! field := get update "field" in
      try! value := get update "value" in
      let p' := match h field value p with
                | Ok p' | ThrowAfter _ p' => p'
                | Throw _ => p
                end in
      forEach_guarded h rest p'
  end.

(** Lines 109-112: the same loop without a [try] of its own; the first
    raise ends it, and the enclosing [catch] keeps what was written so far. *)
Fixpoint forEach_until_raise (h : jsval -> jsval -> Parent -> result Parent)
    (updates : list jsval) (p : Parent) : Parent :=
  match updates with
  | [] => p
  | update :: rest =>
      match (try! field := get update "field" in
             try! value := get update "value" in
             h field value p) with
      | Ok p' => forEach_until_raise h rest p'
      | Throw _ => p
      | ThrowAfter _ p' => p'
      end
  end.

(** Lines 101-118: the field updates carried as JSON text in [message];
    [JSON.parse] prints its argument first, inside the [try]. *)
Definition populate_from_message (message : jsval) (p : Parent) : Parent :=
  match call_to_string message with
  | Ok text =>
      match JSON_parse text with
      | None => p
      | Some actualResponse =>
          match get actualResponse "field_updates", onFormUpdate with
          | Ok field_updates, Some h =>
              if truthy field_updates then
                match field_updates with
                | JArr updates => forEach_until_raise h updates p
                | _ => p
                end
              else p
          | _, _ => p
          end
      end
  | _ => p
  end.

(** Line 139: the message of the envelope, or else the default text, a
    template literal that prints the field and the value. The text is built
    inside the updater handed to [setMessages], which React runs when it
    renders next: a raise there takes the page down as a raise in the effect
    does, and is modelled as one. *)
Definition update_text (message field value : jsval) : result jsval :=
  if truthy message then Ok message
  else
    try! a := call_to_string field in
    try! b := call_to_string value in
    Ok (JStr ("Updated " ++ a ++ " to " ++ dquote ++ b ++ dquote)).

(** Lines 83-174: the branch on [response_type]; the message to append and
    the new state of the parent. *)
Definition apply_envelope (now : nat) (parsedResponse : jsval) (p : Parent)
  : result (message * Parent) :=
  try! response_type := get parsedResponse "response_type" in
  try! message := get parsedResponse "message" in
  if is_str response_type "FORM_POPULATE" then
    try! field_updates := get parsedResponse "field_updates" in
    try! p' :=
      (match onFormUpdate with
       | Some h =>
           if truthy field_updates then
             match field_updates with
             | JArr updates => forEach_guarded h updates p
             | _ => Throw TypeError
             end
           else if truthy message then Ok (populate_from_message message p)
           else Ok p
       | None =>
           if truthy message then Ok (populate_from_message message p)
           else Ok p
       end) in
    Ok ({| type := assistant;
           content := js_or message
             (JStr "I've populated the form with your interaction information.");
           timestamp := now; isInitial := false; isFormUpdate := true;
           isError := false; responseType := Some "FORM_POPULATE" |}, p')
  else if is_str response_type "FORM_UPDATE" then
    try! field := get parsedResponse "field" in
    try! value := get parsedResponse "value" in
    try! p' :=
      (match onFormUpdate, value with
       | None, _ | _, JUndefined => Ok p
       | Some h, _ => if truthy field then h field value p else Ok p
       end) in
    try! text := update_text message field value in
    Ok ({| type := assistant;
           content := text;
           timestamp := now; isInitial := false; isFormUpdate := true;
           isError := false; responseType := Some "FORM_UPDATE" |}, p')
  else if is_str response_type "ERROR" then
    Ok ({| type := assistant;
           content := js_or message (JStr "An error occurred");
           timestamp := now; isInitial := false; isFormUpdate := false;
           isError := true; responseType := Some "ERROR" |}, p)
  else
    Ok (plain now
          (js_or message
             (if is_string parsedResponse then parsedResponse
              else JStr "Response received")), p).

(** [chatResponse !== lastProcessedResponse.current] *)
Definition differs_from_last (r : response) (c : chat) : bool :=
  match lastProcessedResponse c with
  | None => true
  | Some l => negb (strict_eq r l)
  end.

(** Lines 68-179: the effect on [chatResponse] ([None] is the [null] the
    store starts with), run at instant [now]. *)
Definition effect (now : nat) (chatResponse : option response)
    (c : chat) (p : Parent) : result (chat * Parent) :=
  match chatResponse with
  | None => Ok (c, p)
  | Some r =>
      if truthy (payload r) && differs_from_last r c then
        try! mp := apply_envelope now (parse_payload (payload r)) p in
        Ok ({| messages := messages c ++ [fst mp];
               inputMessage := inputMessage c;
               isLoading := false;
               lastProcessedResponse := Some r |}, snd mp)
      else Ok (c, p)
  end.

End Assistant.

(** *** [chatWithAgentAsync] and its reducer cases *)

Inductive request_status := idle | loading | succeeded | failed.

(** The slice state, without the [interactions] list, which no chat case
    touches. *)
Record store := {
  chatResponse : option response;
  status : request_status;
  error : jsval
}.

Definition initialState : store :=
  {| chatResponse := None; status := idle; error := JNull |}.

Inductive action :=
| pending
| fulfilled (payload : response)
| rejected (payload : jsval).

Definition reducer (s : store) (a : action) : store :=
  match a with
  | pending =>
      {| chatResponse := chatResponse s; status := loading;
         error := error s |}
  | fulfilled payload =>
      {| chatResponse := Some payload; status := succeeded;
         error := error s |}
  | rejected payload =>
      {| chatResponse := chatResponse s; status := failed;
         error := payload |}
  end.

(** What the HTTP call of the thunk comes to: the body of the response, or a
    failure, with the body of the error response when there is one. *)
Inductive http :=
| HttpOk (data : response)
| HttpFailed (data : option jsval).

(** The payload creator returns [response.data], or in its [catch]
    [rejectWithValue(error.response.data)]; where [error.response] is
    undefined that read raises, and the thunk is rejected all the same. *)
Definition chatWithAgentAsync (h : http) : action :=
  match h with
  | HttpOk data => fulfilled data
  | HttpFailed (Some data) => rejected data
  | HttpFailed None => rejected JUndefined
  end.

(** What [await dispatch(...)] gives [handleSendMessage]: the promise of a
    [createAsyncThunk] thunk resolves with the final action, fulfilled or
    rejected; [Raised] is a dispatch that raises, the one case the
    [catch] of [handleSendMessage] sees. *)
Inductive awaited :=
| Resolved (a : action)
| Raised.

(** [handleSendMessage] up to the [await]: [None] when it returns at the
    gate without a request. *)
Definition handleSendMessage_begin (now : nat) (c : chat) : option chat :=
  if (trim (inputMessage c) =? EmptyString) || isLoading c then None
  else Some {| messages := messages c ++
                 [ {| type := user; content := JStr (inputMessage c);
                      timestamp := now; isInitial := false;
                      isFormUpdate := false; isError := false;
                      responseType := None |} ];
               inputMessage := inputMessage c;
               isLoading := true;
               lastProcessedResponse := lastProcessedResponse c |}.

(** [handleSendMessage] after the [await]. *)
Definition handleSendMessage_resume (now : nat) (o : awaited) (c : chat)
  : chat :=
  match o with
  | Resolved _ =>
      {| messages := messages c; inputMessage := EmptyString;
         isLoading := isLoading c;
         lastProcessedResponse := lastProcessedResponse c |}
  | Raised =>
      {| messages := messages c ++
           [ {| type := assistant;
                content := JStr "Sorry, I encountered an error. Please try again.";
                timestamp := now; isInitial := false; isFormUpdate := false;
                isError := true; responseType := None |} ];
         inputMessage := inputMessage c;
         isLoading := false;
         lastProcessedResponse := lastProcessedResponse c |}
  end.

End Chat.
Import Chat.

(** ** The page: the form and the assistant wired together *)

Module Session.

(** [issued] counts the chat requests sent so far, so that the n-th request
    carries token n; the components keep no such number, it is kept here to
    name the request a response answers. *)
Record session := {
  issued : nat;
  redux : store;
  ui : chat;
  hcp : form
}.

Definition start (now : nat) (today clock : string) : session :=
  {| issued := 0; redux := initialState;
     ui := Chat.initial now; hcp := Form.initial today clock |}.

Inductive event :=
| Typed (text : string)              (* onChange of the textarea *)
| Submitted                          (* handleSendMessage, up to the await *)
| Settled (token : nat) (h : http)   (* the request with this token settles *)
| Elapsed.                           (* time passes, nothing else *)

Section Run.

Variable JSON_parse : string -> option jsval.

(** [<AIAssistantChat onFormUpdate={handleFormUpdate} .../>]: the effect of
    the assistant with the form as its parent. *)
Definition render_effect (now : nat) (s : session) : result session :=
  try! cp := effect JSON_parse (Some (handleFormUpdate now)) now
               (chatResponse (redux s)) (ui s) (hcp s) in
  Ok {| issued := issued s; redux := redux s; ui := fst cp; hcp := snd cp |}.

(** The dependency check of the effect: React runs it again when
    [chatResponse] is not the value of the previous render. *)
Definition deps_changed (before after : option response) : bool :=
  match before, after with
  | None, None => false
  | Some x, Some y => negb (strict_eq x y)
  | _, _ => true
  end.

(** One event at instant [now]; the timer callbacks due by then have run. *)
Definition step (now : nat) (e : event) (s : session) : result session :=
  let form_now := advance now (hcp s) in
  match e with
  | Typed text =>
      Ok {| issued := issued s; redux := redux s;
            ui := {| messages := messages (ui s); inputMessage := text;
                     isLoading := isLoading (ui s);
                     lastProcessedResponse := lastProcessedResponse (ui s) |};
            hcp := form_now |}
  | Submitted =>
      match handleSendMessage_begin now (ui s) with
      | None =>
          Ok {| issued := issued s; redux := redux s; ui := ui s;
                hcp := form_now |}
      | Some c =>
          Ok {| issued := S (issued s); redux := reducer (redux s) pending;
                ui := c; hcp := form_now |}
      end
  | Settled _ h =>
      let a := chatWithAgentAsync h in
      let s' := {| issued := issued s; redux := reducer (redux s) a;
                   ui := handleSendMessage_resume now (Resolved a) (ui s);
                   hcp := form_now |} in
      if deps_changed (chatResponse (redux s)) (chatResponse (redux s'))
      then render_effect now s'
      else Ok s'
  | Elapsed =>
      Ok {| issued := issued s; redux := redux s; ui := ui s;
            hcp := form_now |}
  end.

Fixpoint run (trace : list (nat * event)) (s : session) : result session :=
  match trace with
  | [] => Ok s
  | (now, e) :: rest => try! s' := step now e s in run rest s'
  end.




End Run.

End Session.
Import Session.

(** ** The rest of the form component *)

Module FormUI.

(** [handleChange]: the [name] and the [value] of the input that changed;
    only [formData] is set. *)
Definition handleChange (name value : string) (f : form) : form :=
  {| formData := <[name := JStr value]> (formData f);
     updatedFields := updatedFields f;
     timers := timers f |}.

(** [handleSentimentChange], called by the three sentiment options. *)
Definition handleSentimentChange (sentiment : string) (f : form) : form :=
  {| formData := <["hcpSentiment" := JStr sentiment]> (formData f);
     updatedFields := updatedFields f;
     timers := timers f |}.

(** [resetForm]: a fresh object for [formData], an empty one for
    [updatedFields]; the timers that are pending are not cancelled. *)
Definition resetForm (today : string) (f : form) : form :=
  {| formData :=
       list_to_map
         [ ("hcpName", JStr EmptyString); ("interactionType", JStr EmptyString);
           ("date", JStr today); ("time", JStr EmptyString);
           ("attendees", JStr EmptyString);
           ("topicsDiscussed", JStr EmptyString);
           ("materialsShared", JStr EmptyString);
           ("samplesDistributed", JStr EmptyString);
           ("hcpSentiment", JStr EmptyString); ("outcomes", JStr EmptyString);
           ("followUpActions", JStr EmptyString) ];
     updatedFields := ∅;
     timers := timers f |}.

(** [recognition.onresult]: the transcripts of the results from
    [resultIndex] on, concatenated, replace the topics. *)
Definition onresult (resultIndex : nat) (transcripts : list string) (f : form)
  : form :=
  {| formData :=
       <["topicsDiscussed" := JStr (String.concat EmptyString
                                      (skipn resultIndex transcripts))]>
         (formData f);
     updatedFields := updatedFields f;
     timers := timers f |}.

(** The form component with its submission flag. *)
Record page := {
  fields : form;
  isSubmitting : bool
}.

(** What [logInteractionAsync] resolves to; [result.type] tells which. *)
Inductive logged :=
| logFulfilled (payload : jsval)
| logRejected (payload : jsval).

Inductive dialog :=
| alerted (text : string)
| confirmed.

(** [handleSubmit] up to the [await]: the dialogs shown, the payload
    dispatched if any, and the page. *)
Definition handleSubmit_begin (pg : page)
  : result (page * list dialog * option (list (string * jsval))) :=
  try! outcome := handleSubmit (isSubmitting pg) (formData (fields pg)) in
  match outcome with
  | Ignored => Ok (pg, [], None)
  | Alert text => Ok (pg, [alerted text], None)
  | Dispatched interactionData =>
      Ok ({| fields := fields pg; isSubmitting := true |}, [],
          Some interactionData)
  end.

(** [handleSubmit] after the [await]: a fulfilled request asks whether to add
    another interaction and resets the form on a yes; anything else raises
    into the [catch], which alerts (the text is given without the symbol it
    starts with); [finally] clears the flag. *)
Definition handleSubmit_settled (today : string) (r : logged)
    (addAnother : bool) (pg : page) : page * list dialog :=
  match r with
  | logFulfilled _ =>
      ({| fields := if addAnother then resetForm today (fields pg)
                    else fields pg;
          isSubmitting := false |}, [confirmed])
  | logRejected _ =>
      ({| fields := fields pg; isSubmitting := false |},
       [alerted "Error logging interaction. Please try again."])
  end.

(** The [disabled] attribute of the submit button. *)
Definition submit_disabled (pg : page) : bool :=
  negb (truthy (field (formData (fields pg)) "hcpName"))
  || negb (truthy (field (formData (fields pg)) "interactionType"))
  || isSubmitting pg.

(** The [className] of the input of a field: five inputs append the class
    [updated] while the flag of their field is set, the other five never
    do. *)
Definition updated_suffix (f : form) (k : string) : string :=
  if highlighted f k then "updated" else EmptyString.

Definition input_className (f : form) (name : string) : option string :=
  if (name =? "hcpName") || (name =? "interactionType")
     || (name =? "materialsShared") || (name =? "samplesDistributed")
  then Some ("form-input " ++ updated_suffix f name)
  else if name =? "topicsDiscussed"
  then Some ("form-textarea " ++ updated_suffix f name)
  else if (name =? "date") || (name =? "time") || (name =? "attendees")
  then Some "form-input"
  else if (name =? "outcomes") || (name =? "followUpActions")
  then Some "form-textarea"
  else None.

(** The three sentiment options, each with its radio mark. *)
Definition sentiment_options : list string :=
  ["Positive"; "Neutral"; "Negative"].

Definition option_checked (f : form) (option : string) : bool :=
  is_str (field (formData f) "hcpSentiment") option.

Definition option_updated (f : form) (option : string) : bool :=
  highlighted f "hcpSentiment" && option_checked f option.

End FormUI.
Import FormUI.

(** ** The rest of the assistant component *)

Module ChatUI.

Definition newline : ascii := ascii_of_nat 10.

(** [content.split(newline)] on a string. *)
Fixpoint split_lines (s : string) : list string :=
  match s with
  | EmptyString => [EmptyString]
  | String c r =>
      if Ascii.eqb c newline then EmptyString :: split_lines r
      else match split_lines r with
           | line :: lines => String c line :: lines
           | [] => [String c EmptyString]
           end
  end.

Fixpoint with_breaks (lines : list string) : list (string * bool) :=
  match lines with
  | [] => []
  | [line] => [(line, false)]
  | line :: rest => (line, true) :: with_breaks rest
  end.

(** [formatMessage(content)]: one block a line, each but the last followed
    by a line break; [split] is a method of strings only. *)
Definition formatMessage (content : jsval) : result (list (string * bool)) :=
  match content with
  | JStr s => Ok (with_breaks (split_lines s))
  | _ => Throw TypeError
  end.

(** The [disabled] attribute of the send button. *)
Definition send_disabled (c : chat) : bool :=
  isLoading c || (trim (inputMessage c) =? EmptyString).

End ChatUI.
Import ChatUI.

(** ** The whole slice: [interactionsSlice.js] *)

Module Slice.

Inductive thunk :=
| logInteraction
| updateInteraction
| getInteractionsForHCP
| chatWithAgent.

(** [interactions] is whatever the last list request returned: an array as
    long as the server answers with one. *)
Record state := {
  interactions : jsval;
  chatResponse : option response;
  status : request_status;
  error : jsval
}.

Definition initialState : state :=
  {| interactions := JArr []; chatResponse := None; status := idle;
     error := JNull |}.

Inductive action :=
| pending (t : thunk)
| fulfilled (t : thunk) (payload : response)
| rejected (t : thunk) (payload : jsval).

(** [a === b] on two values of which an object could only be equal to
    itself: the ids of two payloads, which share no object. *)
Definition same_id (a b : jsval) : bool :=
  match a, b with
  | JUndefined, JUndefined => true
  | JNull, JNull => true
  | JBool x, JBool y => Bool.eqb x y
  | JNum x, JNum y => x =? y
  | JStr x, JStr y => x =? y
  | _, _ => false
  end.

(** [list.findIndex(int => int.id === payload.id)], counting from [i]. *)
Fixpoint findIndex (payload : jsval) (l : list jsval) (i : nat)
  : result (option nat) :=
  match l with
  | [] => Ok None
  | int :: rest =>
      try! id := get int "id" in
      try! wanted := get payload "id" in
      if same_id id wanted then Ok (Some i) else findIndex payload rest (S i)
  end.

(** The twelve cases of [extraReducers]; a case that raises leaves the state
    as it was. *)
Definition reducer (s : state) (a : action) : result state :=
  match a with
  | pending _ =>
      Ok {| interactions := interactions s; chatResponse := chatResponse s;
            status := loading; error := error s |}
  | rejected _ payload =>
      Ok {| interactions := interactions s; chatResponse := chatResponse s;
            status := failed; error := payload |}
  | fulfilled logInteraction r =>
      match interactions s with
      | JArr l =>
          Ok {| interactions := JArr (l ++ [payload r]);
                chatResponse := chatResponse s;
                status := succeeded; error := error s |}
      | _ => Throw TypeError
      end
  | fulfilled updateInteraction r =>
      match interactions s with
      | JArr l =>
          try! index := findIndex (payload r) l 0 in
          Ok {| interactions :=
                  match index with
                  | Some i => JArr (<[i := payload r]> l)
                  | None => JArr l
                  end;
                chatResponse := chatResponse s;
                status := succeeded; error := error s |}
      | _ => Throw TypeError
      end
  | fulfilled getInteractionsForHCP r =>
      Ok {| interactions := payload r; chatResponse := chatResponse s;
            status := succeeded; error := error s |}
  | fulfilled chatWithAgent r =>
      Ok {| interactions := interactions s; chatResponse := Some r;
            status := succeeded; error := error s |}
  end.

(** The part of the state that the assistant selects. *)
Definition chat_view (s : state) : store :=
  {| Chat.chatResponse := chatResponse s; Chat.status := status s;
     Chat.error := error s |}.

Definition chat_action (a : Chat.action) : action :=
  match a with
  | Chat.pending => pending chatWithAgent
  | Chat.fulfilled r => fulfilled chatWithAgent r
  | Chat.rejected e => rejected chatWithAgent e
  end.

Fixpoint reduce_all (s : state) (actions : list action) : result state :=
  match actions with
  | [] => Ok s
  | a :: rest => try! s' := reducer s a in reduce_all s' rest
  end.

End Slice.

(** An oracle for runs that parse no JSON text: every string is rejected. It
    agrees with [JSON.parse] on the strings the examples below hand it. *)
Definition rejects_all : string -> option jsval := fun _ => None.

Definition populate_sentiment : jsval :=
  JObj [ ("response_type", JStr "FORM_POPULATE");
         ("field_updates",
          JArr [ JObj [("field", JStr "sentiment"); ("value", JStr "good")] ]);
         ("message", JStr "ok") ].


(** ** Vocabulary of the properties *)

(** [table[value.toLowerCase()] || value] on a string value. *)
Definition revalue (t : list (string * jsval)) (v : string) : jsval :=
  js_or (obj_get t (toLowerCase v)) (JStr v).


(** The keys of the create payload, in the order [handleSubmit] writes them. *)
Definition wire_keys : list string :=
  [ "hcp_name"; "interaction_date"; "interaction_time"; "interaction_type";
    "attendees"; "summary"; "key_discussion_points"; "materials_shared";
    "samples_distributed"; "sentiment"; "follow_up_actions" ].

(** A fully populated form whose HCP name was typed with spaces around it. *)
Definition padded_form : gmap string jsval :=
  list_to_map
    [ ("hcpName", JStr " Dr. Smith "); ("interactionType", JStr "Meeting");
      ("date", JStr "2025-01-15"); ("time", JStr "10:30");
      ("attendees", JStr "Dr. Lee"); ("topicsDiscussed", JStr "Dosing");
      ("materialsShared", JStr "Brochure");
      ("samplesDistributed", JStr "Starter pack");
      ("hcpSentiment", JStr "Positive"); ("outcomes", JStr "Agreed to a trial");
      ("followUpActions", JStr "Call next week") ].

(** A timer of field [k] that is due by [t]. *)
Definition due_for (k : string) (t : nat) (p : nat * string) : bool :=
  (snd p =? k)%string && (fst p <=? t)%nat.

(** [v.k] where the read cannot raise. *)
Definition prop (v : jsval) (k : string) : jsval :=
  match get v k with
  | Ok x => x
  | _ => JUndefined
  end.

(** An element of [field_updates] that has properties to read: anything but
    [null] and [undefined]. *)
Definition entry (u : jsval) : Prop := u <> JNull /\ u <> JUndefined.

(** The write of one element, as far as it got when [onFormUpdate] raises
    on it. *)
Definition write_or_skip {Parent : Type}
    (h : jsval -> jsval -> Parent -> result Parent)
    (p : Parent) (u : jsval) : Parent :=
  match h (prop u "field") (prop u "value") p with
  | Ok p' | ThrowAfter _ p' => p'
  | Throw _ => p
  end.

(** The element [{field: "sentiment", value: "good"}]. *)
Definition sentiment_good : jsval :=
  JObj [("field", JStr "sentiment"); ("value", JStr "good")].

(** The write of element [u] goes to the form field [k]. *)
Definition writes_to (u : jsval) (k : string) : Prop :=
  exists p, normalize (prop u "field") (prop u "value") = Ok p
            /\ to_string (fst p) = k.

(** A handler that counts its calls and raises on a value that is no
    string: the third element below is skipped, the fourth still counted. *)
Definition counting (field value : jsval) (calls : nat) : result nat :=
  match value with
  | JStr _ => Ok (S calls)
  | _ => Throw TypeError
  end.

Definition update_sentiment (v : string) : jsval :=
  JObj [ ("response_type", JStr "FORM_UPDATE");
         ("field", JStr "sentiment"); ("value", JStr v) ].

(** Three requests: the first two are answered, the third is outstanding. *)
Definition three_requests : list (nat * event) :=
  [ (0, Typed "He seemed unhappy"); (1, Submitted);
    (10, Settled 1 (HttpOk {| ref := 1; payload := update_sentiment "bad" |}));
    (20, Typed "Sorry, he was pleased"); (21, Submitted);
    (30, Settled 2 (HttpOk {| ref := 2; payload := update_sentiment "good" |}));
    (40, Typed "Add the brochure"); (41, Submitted) ].


(** An element on which [handleFormUpdate] returns: it gets past the
    normaliser, and the value to write prints. *)
Definition completes (u : jsval) : Prop :=
  exists q, normalize (prop u "field") (prop u "value") = Ok q
            /\ prints (snd q) = true.

(** The write of one element into the form, at instant [now]. *)
Definition write_form (now : nat) : form -> jsval -> form :=
  write_or_skip (handleFormUpdate now).

(** The form field an alias resolves to:
    [fieldMapping[field.toLowerCase()] || field]. *)
Definition resolved (f : string) : jsval :=
  js_or (obj_get fieldMapping (toLowerCase f)) (JStr f).

(** The resolved field is one of the two whose value goes through a table. *)
Definition has_value_table (f : string) : bool :=
  is_str (resolved f) "hcpSentiment" || is_str (resolved f) "interactionType".

(** Every field whose flag is set has a timer pending that will clear it. *)
Definition every_flag_has_timer (f : form) : Prop :=
  forall k, highlighted f k = true -> exists due, In (due, k) (timers f).

(** An oracle that parses the text null, as [JSON.parse] does, and rejects
    every other string. *)
Definition parses_null (s : string) : option jsval :=
  if s =? "null" then Some JNull else None.

(** The create payload sent back as field updates, one element a key. *)
Definition as_updates (interactionData : list (string * jsval)) : list jsval :=
  map (fun kv => JObj [("field", JStr (fst kv)); ("value", snd kv)])
      interactionData.

(** The assistant once the effect has processed [r] and appended [m]. *)
Definition processed (r : response) (m : message) (c : chat) : chat :=
  {| messages := messages c ++ [m];
     inputMessage := inputMessage c;
     isLoading := false;
     lastProcessedResponse := Some r |}.

(** The message of the FORM_UPDATE branch. *)
Definition update_message (now : nat) (text field value : jsval)
  : Chat.message :=
  {| type := assistant;
     content := js_or text
       (JStr ("Updated " ++ to_string field ++ " to " ++ dquote
              ++ to_string value ++ dquote));
     timestamp := now; isInitial := false; isFormUpdate := true;
     isError := false; responseType := Some "FORM_UPDATE" |}.

(** The response types that have a branch of their own. *)
Definition known_kinds : list string :=
  ["FORM_POPULATE"; "FORM_UPDATE"; "ERROR"].

(** One field update as a FORM_UPDATE envelope, and as the only element of
    a FORM_POPULATE envelope. *)
Definition update_envelope (f : string) (value : jsval) : jsval :=
  JObj [ ("response_type", JStr "FORM_UPDATE");
         ("field", JStr f); ("value", value) ].

Definition populate_envelope (f : string) (value : jsval) : jsval :=
  JObj [ ("response_type", JStr "FORM_POPULATE");
         ("field_updates",
          JArr [ JObj [("field", JStr f); ("value", value)] ]) ].

(** A JSON text of three field updates, the second with a number for the
    sentiment, and an oracle that parses it as [JSON.parse] does and rejects
    every other string. *)
Definition quoted (s : string) : string := dquote ++ s ++ dquote.

Definition three_updates_text : string :=
  "{" ++ quoted "field_updates" ++ ":[{" ++ quoted "field" ++ ":"
  ++ quoted "date" ++ "," ++ quoted "value" ++ ":" ++ quoted "2025-02-01"
  ++ "},{" ++ quoted "field" ++ ":" ++ quoted "sentiment" ++ ","
  ++ quoted "value" ++ ":5},{" ++ quoted "field" ++ ":" ++ quoted "type"
  ++ "," ++ quoted "value" ++ ":" ++ quoted "call" ++ "}]}".

Definition three_updates : list jsval :=
  [ JObj [("field", JStr "date"); ("value", JStr "2025-02-01")];
    JObj [("field", JStr "sentiment"); ("value", JNum "5")];
    JObj [("field", JStr "type"); ("value", JStr "call")] ].

Definition parses_three_updates (s : string) : option jsval :=
  if s =? three_updates_text
  then Some (JObj [("field_updates", JArr three_updates)])
  else None.

(** The line breaks of a text. *)
Fixpoint count_newlines (s : string) : nat :=
  match s with
  | EmptyString => 0
  | String c r =>
      (if Ascii.eqb c newline then 1 else 0) + count_newlines r
  end.

(** An action that is not the rejection of a thunk, and one that is not the
    fulfilment of a chat request. *)
Definition not_rejected (a : Slice.action) : Prop :=
  match a with
  | Slice.rejected _ _ => False
  | _ => True
  end.

Definition not_chat_fulfilled (a : Slice.action) : Prop :=
  match a with
  | Slice.fulfilled Slice.chatWithAgent _ => False
  | _ => True
  end.

(** The interaction [x] has the id of [payload]. *)
Definition has_id_of (payload x : jsval) : bool :=
  Slice.same_id (prop x "id") (prop payload "id").

(** * Properties *)

(** ** The normaliser *)

Example normalize_alias_and_value :
  normalize (JStr "Sentiment") (JStr "GOOD")
  = Ok (JStr "hcpSentiment", JStr "Positive").
Proof. reflexivity. Qed.

Example normalize_type_alias :
  normalize (JStr "type") (JStr "Phone") = Ok (JStr "interactionType", JStr "Call").
Proof. reflexivity. Qed.

Example normalize_unknown_alias_falls_through :
  normalize (JStr "Specialty") (JStr "Cardiology")
  = Ok (JStr "Specialty", JStr "Cardiology").
Proof. reflexivity. Qed.

Example normalize_number_as_sentiment_raises :
  normalize (JStr "sentiment") (JNum "5") = Throw TypeError.
Proof. reflexivity. Qed.

Lemma own_some_in {A} (t : list (string * A)) k x :
  own t k = Some x -> In x (map snd t).
Proof.
  induction t as [|[k' v] t IH]; simpl; [discriminate|].
  destruct (k' =? k)%string; [intros [= ->]; now left | right; auto].
Qed.

(** A name that is no property of [Object.prototype] is looked up among the
    own properties only. *)
Lemma obj_get_own t k :
  inherited k = None -> obj_get t k = default JUndefined (own t k).
Proof. intros H. unfold obj_get. rewrite H. now destruct (own t k). Qed.


Ltac table_values H :=
  apply own_some_in in H; simpl in H;
  repeat (destruct H as [H|H]; [subst|]); [..|contradiction].

Lemma revalue_sentiment v :
  inherited (toLowerCase v) = None ->
  exists w, revalue sentimentMap v = JStr w
            /\ revalue sentimentMap w = JStr w.
Proof.
  intros Hv. unfold revalue at 1. rewrite (obj_get_own _ _ Hv).
  destruct (own sentimentMap (toLowerCase v)) as [x|] eqn:E.
  - table_values E; eexists; split; reflexivity.
  - exists v. split; [reflexivity|].
    unfold revalue. rewrite (obj_get_own _ _ Hv), E. reflexivity.
Qed.

Lemma revalue_type v :
  inherited (toLowerCase v) = None ->
  exists w, revalue typeMap v = JStr w /\ revalue typeMap w = JStr w.
Proof.
  intros Hv. unfold revalue at 1. rewrite (obj_get_own _ _ Hv).
  destruct (own typeMap (toLowerCase v)) as [x|] eqn:E.
  - table_values E; eexists; split; reflexivity.
  - exists v. split; [reflexivity|].
    unfold revalue. rewrite (obj_get_own _ _ Hv), E. reflexivity.
Qed.

(** The resolved field decides the value table. *)
Lemma normalize_resolved f v c :
  js_or (obj_get fieldMapping (toLowerCase f)) (JStr f) = JStr c ->
  normalize (JStr f) (JStr v)
  = Ok (JStr c,
        if (c =? "hcpSentiment")%string then revalue sentimentMap v
        else if (c =? "interactionType")%string then revalue typeMap v
        else JStr v).
Proof.
  intros H. unfold normalize. cbn [call_toLowerCase bind]. rewrite H.
  cbn [is_str]. destruct (String.eqb_spec c "hcpSentiment") as [->|_].
  - reflexivity.
  - destruct (c =? "interactionType")%string; reflexivity.
Qed.

(** Away from the names an object literal inherits, normalising twice is
    normalising once. *)
Lemma normalize_idempotent (f v : string) :
  inherited (toLowerCase f) = None ->
  inherited (toLowerCase v) = None ->
  exists c w, normalize (JStr f) (JStr v) = Ok (JStr c, JStr w)
              /\ normalize (JStr c) (JStr w) = Ok (JStr c, JStr w).
Proof.
  intros Hf Hv.
  destruct (revalue_sentiment v Hv) as (ws & Hs1 & Hs2).
  destruct (revalue_type v Hv) as (wt & Ht1 & Ht2).
  assert (Hc : exists c,
    js_or (obj_get fieldMapping (toLowerCase f)) (JStr f) = JStr c
    /\ js_or (obj_get fieldMapping (toLowerCase c)) (JStr c) = JStr c).
  { rewrite (obj_get_own _ _ Hf).
    destruct (own fieldMapping (toLowerCase f)) as [x|] eqn:E.
    - table_values E; eexists; split; reflexivity.
    - exists f. split; [reflexivity|].
      rewrite (obj_get_own _ _ Hf), E. reflexivity. }
  destruct Hc as (c & Hc1 & Hc2).
  rewrite (normalize_resolved f v c Hc1).
  destruct (c =? "hcpSentiment")%string eqn:E1;
    [|destruct (c =? "interactionType")%string eqn:E2].
  - exists c, ws. split; [now rewrite Hs1|].
    rewrite (normalize_resolved c ws c Hc2), E1. now rewrite Hs2.
  - exists c, wt. split; [now rewrite Ht1|].
    rewrite (normalize_resolved c wt c Hc2), E1, E2. now rewrite Ht2.
  - exists c, v. split; [reflexivity|].
    rewrite (normalize_resolved c v c Hc2), E1, E2. reflexivity.
Qed.

Lemma normalize_string_field f value :
  normalize (JStr f) value
  = if has_value_table f
    then match value with
         | JStr v =>
             Ok (resolved f,
                 if is_str (resolved f) "hcpSentiment"
                 then revalue sentimentMap v else revalue typeMap v)
         | _ => Throw TypeError
         end
    else Ok (resolved f, value).
Proof.
  unfold normalize, has_value_table. cbn [call_toLowerCase bind].
  fold (resolved f).
  destruct (resolved f) as [| | | |c| | |]; cbn [is_str orb]; try reflexivity.
  destruct (String.eqb_spec c "hcpSentiment") as [->|_].
  - cbn [orb]. destruct value; reflexivity.
  - cbn [orb]. destruct (c =? "interactionType")%string; [|reflexivity].
    destruct value; reflexivity.
Qed.

(** The resolved field is a string of the table, the field itself or a
    built-in of [Object.prototype]: it prints. *)
Lemma resolved_prints f : prints (resolved f) = true.
Proof.
  unfold resolved, obj_get.
  destruct (own fieldMapping (toLowerCase f)) as [x|] eqn:E.
  - table_values E; reflexivity.
  - destruct (inherited (toLowerCase f)); reflexivity.
Qed.

(** [normalize] returns for a string field, with the field resolved, or
    raises a TypeError. *)
Lemma normalize_cases field value :
  (exists p f, normalize field value = Ok p
               /\ field = JStr f /\ fst p = resolved f)
  \/ normalize field value = Throw TypeError.
Proof.
  destruct field as [| | | |f| | |]; try (right; reflexivity).
  rewrite normalize_string_field.
  destruct (has_value_table f).
  - destruct value; try (right; reflexivity).
    left. eexists. exists f. repeat split.
  - left. eexists. exists f. repeat split.
Qed.

(** A call that gets past [normalize] runs the setters; it raises after them
    exactly when the value does not print. *)
Lemma handleFormUpdate_written now field value f p :
  normalize field value = Ok p ->
  handleFormUpdate now field value f
  = if prints (snd p) then Ok (write now (fst p) (snd p) f)
    else ThrowAfter TypeError (write now (fst p) (snd p) f).
Proof.
  intros Hp. unfold handleFormUpdate. rewrite Hp. cbn [bind].
  destruct (normalize_cases field value) as [(q & f0 & Hq & -> & Hres)|H];
    [|congruence].
  assert (q = p) by congruence. subst q.
  unfold update_log, call_to_string. rewrite Hres, resolved_prints.
  cbn [prints bind]. destruct (prints (snd p)); reflexivity.
Qed.

Lemma handleFormUpdate_raises now field value f :
  normalize field value = Throw TypeError ->
  handleFormUpdate now field value f = Throw TypeError.
Proof. intros H. unfold handleFormUpdate. now rewrite H. Qed.

(** The state one element of a list of updates leaves. *)
Lemma write_form_eq now f u :
  write_form now f u
  = match normalize (prop u "field") (prop u "value") with
    | Ok p => write now (fst p) (snd p) f
    | _ => f
    end.
Proof.
  unfold write_form, write_or_skip.
  destruct (normalize_cases (prop u "field") (prop u "value"))
    as [(p & f0 & Hp & _)|H].
  - rewrite (handleFormUpdate_written _ _ _ _ _ Hp), Hp.
    now destruct (prints (snd p)).
  - now rewrite (handleFormUpdate_raises _ _ _ _ H), H.
Qed.

(** C2. The normaliser is not idempotent on every pair of strings: a value
    whose lower-case form names a property that the value table inherits from
    [Object.prototype] is replaced by that property. The sentiment
    "constructor" normalises to the function [Object], not to a string, and
    normalising the result again raises a TypeError. *)
Theorem normalize_constructor_not_idempotent :
  normalize (JStr "sentiment") (JStr "constructor")
    = Ok (JStr "hcpSentiment", JNative ObjectCtor)
  /\ normalize (JStr "hcpSentiment") (JNative ObjectCtor) = Throw TypeError
  /\ normalize (JStr "Constructor") (JStr "x")
    = Ok (JNative ObjectCtor, JStr "x")
  /\ normalize (JNative ObjectCtor) (JStr "x") = Throw TypeError.
Proof. repeat split; reflexivity. Qed.

(** *** The alias table *)




(** ** Direct submission *)

(** C9, as stated, fails: the form passes validation and is submitted, but the
    payload carries the HCP name trimmed, not the value of the form; and the
    key of that value is the wire name hcp_name, not the canonical name. *)
Lemma submit_trims_hcp_name :
  match handleSubmit false padded_form with
  | Ok (Dispatched payload) =>
      padded_form !! "hcpName" = Some (JStr " Dr. Smith ")
      /\ own payload "hcp_name" = Some (JStr "Dr. Smith")
      /\ own payload "hcpName" = None
  | _ => False
  end.
Proof. vm_compute. repeat split; reflexivity. Qed.

(** White space outside ASCII is trimmed as well, and a name made of it is
    blank. *)
Example trim_unicode_white_space :
  trim (bytes [194; 160; 32; 226; 128; 168] ++ "Dr. Rao"
        ++ bytes [239; 187; 191; 9; 227; 128; 128]) = "Dr. Rao"
  /\ trim (bytes [194; 160; 226; 128; 138]) = EmptyString.
Proof. split; reflexivity. Qed.

Lemma trim_nonempty name : trim name <> EmptyString -> truthy (JStr name) = true.
Proof. destruct name; [intros H; exfalso; now apply H | reflexivity]. Qed.

(** C9, amended. A form that passes validation (a string HCP name that is not
    blank, a truthy interaction type) is submitted with a payload of exactly
    eleven distinct keys, the wire names; every canonical field has one of
    them as an alias of the table, and the payload holds under that key the
    value of the field in the form, except that the HCP name is trimmed. *)
Theorem submit_payload_covers_canonical_fields
    (fd : gmap string jsval) (name : string) :
  fd !! "hcpName" = Some (JStr name) ->
  trim name <> EmptyString ->
  truthy (field fd "interactionType") = true ->
  exists payload,
    handleSubmit false fd = Ok (Dispatched payload)
    /\ map fst payload = wire_keys
    /\ NoDup wire_keys
    /\ length wire_keys = length canonical_fields
    /\ Forall (fun c =>
                 exists k, In k wire_keys
                   /\ own fieldMapping k = Some (JStr c)
                   /\ own payload k
                      = Some (if (c =? "hcpName")%string
                              then JStr (trim name) else field fd c))
              canonical_fields.
Proof.
  intros Hname Htrim Htype.
  assert (Hfield : field fd "hcpName" = JStr name)
    by (unfold field; now rewrite Hname).
  unfold handleSubmit. rewrite Hfield. cbn [call_trim bind].
  rewrite (trim_nonempty _ Htrim). cbn [negb].
  destruct (String.eqb_spec (trim name) EmptyString) as [E|_];
    [contradiction|].
  rewrite Htype. cbn [negb].
  eexists. split; [reflexivity|]. split; [reflexivity|].
  split; [apply (bool_decide_unpack _); vm_compute; reflexivity|].
  split; [reflexivity|].
  unfold canonical_fields.
  repeat match goal with
         | |- Forall _ _ => constructor
         end.
  - exists "hcp_name"; (split; [simpl; tauto | split; reflexivity]).
  - exists "interaction_type"; (split; [simpl; tauto | split; reflexivity]).
  - exists "interaction_date"; (split; [simpl; tauto | split; reflexivity]).
  - exists "interaction_time"; (split; [simpl; tauto | split; reflexivity]).
  - exists "attendees"; (split; [simpl; tauto | split; reflexivity]).
  - exists "key_discussion_points"; (split; [simpl; tauto | split; reflexivity]).
  - exists "materials_shared"; (split; [simpl; tauto | split; reflexivity]).
  - exists "samples_distributed"; (split; [simpl; tauto | split; reflexivity]).
  - exists "sentiment"; (split; [simpl; tauto | split; reflexivity]).
  - exists "summary"; (split; [simpl; tauto | split; reflexivity]).
  - exists "follow_up_actions"; (split; [simpl; tauto | split; reflexivity]).
Qed.

Lemma submit_payload_witness :
  exists payload,
    handleSubmit false padded_form = Ok (Dispatched payload)
    /\ map fst payload = wire_keys
    /\ NoDup wire_keys
    /\ length wire_keys = length canonical_fields
    /\ Forall (fun c =>
                 exists k, In k wire_keys
                   /\ own fieldMapping k = Some (JStr c)
                   /\ own payload k
                      = Some (if (c =? "hcpName")%string
                              then JStr (trim " Dr. Smith ")
                              else field padded_form c))
              canonical_fields.
Proof.
  apply (submit_payload_covers_canonical_fields padded_form " Dr. Smith ").
  - vm_compute. reflexivity.
  - vm_compute. discriminate.
  - vm_compute. reflexivity.
Defined.

(** ** The highlight timers *)

Lemma expired_flags_lookup (due : list (nat * string)) :
  forall (flags : gmap string bool) (k : string),
    foldl (fun fl p => expire (snd p) fl) flags due !! k
    = if existsb (fun p => (snd p =? k)%string) due then Some false
      else flags !! k.
Proof.
  induction due as [|[d k'] due IH]; intros flags k; simpl; [reflexivity|].
  rewrite IH. destruct (existsb _ due); [now rewrite orb_true_r|].
  rewrite orb_false_r. unfold expire.
  destruct (String.eqb_spec k' k) as [->|Hne].
  - now rewrite lookup_insert_eq.
  - now rewrite lookup_insert_ne.
Qed.

Lemma existsb_filter {A} (P Q : A -> bool) l :
  existsb P (List.filter Q l) = existsb (fun x => P x && Q x) l.
Proof.
  induction l as [|x l IH]; simpl; [reflexivity|].
  destruct (Q x); simpl; rewrite IH; [now rewrite andb_true_r|].
  now rewrite andb_false_r.
Qed.

(** When the clock reaches [t], a field is highlighted iff it was and no timer
    of the field was due. *)
Lemma highlighted_advance t f k :
  highlighted (advance t f) k
  = highlighted f k && negb (existsb (due_for k t) (timers f)).
Proof.
  unfold highlighted, advance; simpl.
  rewrite expired_flags_lookup, existsb_filter.
  unfold due_for.
  destruct (existsb _ (timers f)); simpl; [now rewrite andb_false_r|].
  now rewrite andb_true_r.
Qed.

(** C5, as stated, fails: the sentiment is updated at 0 ms and again at
    2000 ms; the timer of the first update clears the highlight at 3000 ms,
    2000 ms before the window of the second update ends. *)
Lemma second_update_does_not_restart_timer :
  match handleFormUpdate 0 (JStr "sentiment") (JStr "good")
          (Form.initial "2025-01-15" "10:30") with
  | Ok f1 =>
      match handleFormUpdate 2000 (JStr "sentiment") (JStr "bad")
              (advance 2000 f1) with
      | Ok f2 =>
          highlighted f2 "hcpSentiment" = true
          /\ highlighted (advance 2999 f2) "hcpSentiment" = true
          /\ highlighted (advance 3000 f2) "hcpSentiment" = false
          /\ 3000 < 2000 + highlight_ms
      | _ => False
      end
  | _ => False
  end.
Proof. vm_compute. repeat split; try reflexivity. lia. Qed.

(** C5, amended. An update marks its field and sets a timer of its own, due
    3000 ms later; no timer is ever cancelled or restarted. So, as long as
    nothing but time passes, the field stays highlighted up to the first
    instant at which a timer of the field is due: the full 3000 ms, and not
    longer, when no timer of the field was pending at the update, and only
    up to the earliest pending one otherwise. A reset of the form clears the
    highlight at once. All of this holds of the state the update writes,
    whether the call returns or raises at its last logging line, which it
    does when the value does not print. *)
Theorem highlight_until_first_due_timer
    (now : nat) (field value : jsval) (f : form) (p : jsval * jsval) :
  normalize field value = Ok p ->
  let k := to_string (fst p) in
  exists f',
    handleFormUpdate now field value f
      = (if prints (snd p) then Ok f' else ThrowAfter TypeError f')
    /\ timers f' = (timers f ++ [(now + highlight_ms, k)])%list
    /\ highlighted f' k = true
    /\ (forall t, highlighted (advance t f') k = true
                  <-> t < now + highlight_ms
                      /\ forall due, In (due, k) (timers f) -> t < due)
    /\ ((forall due, ~ In (due, k) (timers f)) ->
        forall t, highlighted (advance t f') k = true
                  <-> t < now + highlight_ms)
    /\ (forall today, highlighted (resetForm today f') k = false).
Proof.
  intros Hp k. rewrite (handleFormUpdate_written _ _ _ _ _ Hp).
  exists (write now (fst p) (snd p) f).
  split; [now destruct (prints (snd p))|]. split; [reflexivity|].
  assert (Hon : highlighted (write now (fst p) (snd p) f) k = true).
  { unfold highlighted, write; simpl. now rewrite lookup_insert_eq. }
  split; [exact Hon|].
  assert (Hchar : forall t,
    highlighted (advance t (write now (fst p) (snd p) f)) k = true
    <-> t < now + highlight_ms
        /\ forall due, In (due, k) (timers f) -> t < due).
  { intros t. rewrite highlighted_advance, Hon. cbn [andb write timers].
    fold k.
    rewrite negb_true_iff, existsb_app. cbn [existsb].
    rewrite orb_false_r, orb_false_iff.
    unfold due_for at 2. cbn [fst snd]. rewrite String.eqb_refl. cbn [andb].
    rewrite Nat.leb_gt.
    split.
    - intros [Hnone Hlt]. split; [exact Hlt|]. intros due Hin.
      destruct (Nat.lt_ge_cases t due) as [?|Hge]; [assumption|exfalso].
      assert (E : existsb (due_for k t) (timers f) = true).
      { apply existsb_exists. exists (due, k). split; [exact Hin|].
        unfold due_for; cbn [fst snd]. rewrite String.eqb_refl. cbn [andb].
        now apply Nat.leb_le. }
      congruence.
    - intros [Hlt Hall]. split; [|exact Hlt].
      destruct (existsb (due_for k t) (timers f)) eqn:E; [exfalso|reflexivity].
      apply existsb_exists in E. destruct E as ([due k'] & Hin & Hd).
      unfold due_for in Hd; cbn [fst snd] in Hd.
      apply andb_true_iff in Hd. destruct Hd as [Hk Hle].
      apply String.eqb_eq in Hk. subst k'. apply Nat.leb_le in Hle.
      specialize (Hall due Hin). lia. }
  split; [exact Hchar|]. split; [|reflexivity].
  intros Hnone t. rewrite Hchar. split; [tauto|].
  intros Hlt. split; [exact Hlt|]. intros due Hin. now destruct (Hnone due).
Qed.

Lemma highlight_until_first_due_timer_witness :
  exists f',
    handleFormUpdate 100 (JStr "sentiment") (JStr "good")
      (Form.initial "2025-01-15" "10:30") = Ok f'
    /\ timers f' = [(100 + highlight_ms, "hcpSentiment")]
    /\ highlighted f' "hcpSentiment" = true
    /\ highlighted (advance 3099 f') "hcpSentiment" = true
    /\ highlighted (advance 3100 f') "hcpSentiment" = false
    /\ highlighted (resetForm "2025-01-16" f') "hcpSentiment" = false.
Proof.
  destruct (highlight_until_first_due_timer 100 (JStr "sentiment")
              (JStr "good") (Form.initial "2025-01-15" "10:30")
              (JStr "hcpSentiment", JStr "Positive") eq_refl)
    as (f' & Hupd & Htimers & Hon & _ & Hfull & Hreset).
  exists f'. split; [exact Hupd|]. split; [exact Htimers|].
  split; [exact Hon|].
  assert (Hnone : forall due,
             ~ In (due, "hcpSentiment")
                 (timers (Form.initial "2025-01-15" "10:30")))
    by (intros due []).
  split; [|split; [|apply Hreset]].
  - apply (Hfull Hnone). unfold highlight_ms. lia.
  - destruct (highlighted (advance 3100 f') "hcpSentiment") eqn:E;
      [|reflexivity].
    apply (Hfull Hnone) in E. unfold highlight_ms in E. lia.
Defined.

(** ** The effect of the assistant *)

Lemma get_entry u k : entry u -> get u k = Ok (prop u k).
Proof. intros [Hn Hu]. unfold prop. destruct u; try reflexivity; congruence. Qed.

Lemma get_after_get v k x k' : get v k = Ok x -> get v k' = Ok (prop v k').
Proof. unfold prop. destruct v; try discriminate; reflexivity. Qed.

Lemma truthy_string s : s <> EmptyString -> truthy (JStr s) = true.
Proof. destruct s; [congruence | reflexivity]. Qed.

Section Envelopes.

Variable JSON_parse : string -> option jsval.
Context {Parent : Type}.
Variable onFormUpdate : option (jsval -> jsval -> Parent -> result Parent).

(** C8. An ERROR envelope that the effect processes appends exactly one
    message, an assistant message flagged as error, and leaves the state of
    the parent as it was, whatever [onFormUpdate] would do with it: the form
    is not written. *)
Theorem error_envelope_appends_one_error_message
    (now : nat) (r : response) (c : chat) (p : Parent) :
  truthy (payload r) = true ->
  differs_from_last r c = true ->
  get (parse_payload JSON_parse (payload r)) "response_type"
    = Ok (JStr "ERROR") ->
  exists m c',
    effect JSON_parse onFormUpdate now (Some r) c p = Ok (c', p)
    /\ messages c' = (messages c ++ [m])%list
    /\ type m = assistant
    /\ isError m = true
    /\ responseType m = Some "ERROR"
    /\ content m = js_or (prop (parse_payload JSON_parse (payload r)) "message")
                         (JStr "An error occurred")
    /\ isLoading c' = false.
Proof.
  intros Htruthy Hnew Hkind. unfold effect. rewrite Htruthy, Hnew. cbn [andb].
  unfold apply_envelope. rewrite Hkind. cbn [bind].
  rewrite (get_after_get _ _ _ "message" Hkind). cbn [bind].
  change (is_str (JStr "ERROR") "FORM_POPULATE") with false.
  change (is_str (JStr "ERROR") "FORM_UPDATE") with false.
  change (is_str (JStr "ERROR") "ERROR") with true. cbn iota. cbn [bind fst snd].
  eexists. eexists. split; [reflexivity|]. cbn. repeat split; reflexivity.
Qed.

(** C7, amended. A text payload that [JSON.parse] rejects, that is not empty
    and that differs from the response processed last, is appended whole as a
    plain assistant message; nothing raises and the state of the parent is
    left as it was. *)
Theorem unparseable_text_becomes_plain_message
    (now id : nat) (s : string) (c : chat) (p : Parent) :
  JSON_parse s = None ->
  s <> EmptyString ->
  differs_from_last {| ref := id; payload := JStr s |} c = true ->
  effect JSON_parse onFormUpdate now (Some {| ref := id; payload := JStr s |})
    c p
  = Ok ({| messages := messages c ++ [plain now (JStr s)];
           inputMessage := inputMessage c;
           isLoading := false;
           lastProcessedResponse := Some {| ref := id; payload := JStr s |} |},
        p).
Proof.
  intros Hparse Hne Hnew. unfold effect. cbn [payload].
  rewrite (truthy_string s Hne), Hnew. cbn [andb].
  unfold parse_payload. rewrite Hparse.
  unfold apply_envelope.
  change (get (JObj [("message", JStr s)]) "response_type") with (@Ok jsval JUndefined).
  change (get (JObj [("message", JStr s)]) "message") with (@Ok jsval (JStr s)).
  cbn [bind is_str is_string fst snd]. unfold js_or.
  rewrite (truthy_string s Hne). reflexivity.
Qed.

Lemma forEach_guarded_entries
    (h : jsval -> jsval -> Parent -> result Parent) updates :
  Forall entry updates ->
  forall p, forEach_guarded h updates p = Ok (foldl (write_or_skip h) p updates).
Proof.
  induction 1 as [|u updates Hu _ IH]; intros p; [reflexivity|].
  cbn [forEach_guarded foldl].
  rewrite (get_entry u "field" Hu), (get_entry u "value" Hu). cbn [bind].
  apply IH.
Qed.

(** The FORM_POPULATE branch on a list of elements with properties. *)
Lemma effect_populate
    (h : jsval -> jsval -> Parent -> result Parent)
    (now : nat) (r : response) (c : chat) (p : Parent)
    (props : list (string * jsval)) (updates : list jsval) :
  truthy (payload r) = true ->
  differs_from_last r c = true ->
  parse_payload JSON_parse (payload r) = JObj props ->
  obj_get props "response_type" = JStr "FORM_POPULATE" ->
  obj_get props "field_updates" = JArr updates ->
  Forall entry updates ->
  exists m c',
    effect JSON_parse (Some h) now (Some r) c p
      = Ok (c', foldl (write_or_skip h) p updates)
    /\ messages c' = (messages c ++ [m])%list
    /\ type m = assistant
    /\ isFormUpdate m = true
    /\ isError m = false
    /\ responseType m = Some "FORM_POPULATE"
    /\ content m
       = js_or (obj_get props "message")
           (JStr "I've populated the form with your interaction information.")
    /\ isLoading c' = false.
Proof.
  intros Htruthy Hnew Hparsed Hkind Hupdates Hentries.
  unfold effect. rewrite Htruthy, Hnew. cbn [andb].
  rewrite Hparsed. unfold apply_envelope. cbn [get bind].
  rewrite Hkind, Hupdates.
  change (is_str (JStr "FORM_POPULATE") "FORM_POPULATE") with true.
  cbn iota. cbn [bind truthy].
  rewrite (forEach_guarded_entries h updates Hentries). cbn [bind fst snd].
  eexists. eexists. split; [reflexivity|]. cbn. repeat split; reflexivity.
Qed.

(** C10, amended. A FORM_POPULATE envelope whose [field_updates] is a list
    of elements with properties, that is without a [null] among them, is
    applied without raising, whatever [onFormUpdate] does: each element is
    written in turn, an element on which the write raises leaves what the
    call had written by then (nothing, when [handleFormUpdate] raises at the
    field or the value) and the ones after it are still written, and the
    confirmation message is appended. *)
Theorem populate_isolates_failing_updates
    (h : jsval -> jsval -> Parent -> result Parent)
    (now : nat) (r : response) (c : chat) (p : Parent)
    (props : list (string * jsval)) (updates : list jsval) :
  truthy (payload r) = true ->
  differs_from_last r c = true ->
  parse_payload JSON_parse (payload r) = JObj props ->
  obj_get props "response_type" = JStr "FORM_POPULATE" ->
  obj_get props "field_updates" = JArr updates ->
  Forall entry updates ->
  exists m c',
    effect JSON_parse (Some h) now (Some r) c p
      = Ok (c', foldl (write_or_skip h) p updates)
    /\ messages c' = (messages c ++ [m])%list
    /\ type m = assistant
    /\ isFormUpdate m = true
    /\ isError m = false
    /\ responseType m = Some "FORM_POPULATE"
    /\ content m
       = js_or (obj_get props "message")
           (JStr "I've populated the form with your interaction information.")
    /\ isLoading c' = false.
Proof. apply effect_populate. Qed.

(** A response that is strictly equal to the one processed last is
    discarded. *)
Lemma duplicate_response_discarded
    (now : nat) (r l : response) (c : chat) (p : Parent) :
  lastProcessedResponse c = Some l ->
  strict_eq r l = true ->
  effect JSON_parse onFormUpdate now (Some r) c p = Ok (c, p).
Proof.
  intros Hlast Hsame. unfold effect, differs_from_last.
  rewrite Hlast, Hsame. cbn [negb]. now rewrite andb_false_r.
Qed.

End Envelopes.

(** ** The assistant writing into the form *)

Section FormWrites.

Variable now : nat.

Lemma write_keeps_highlight f u k :
  highlighted f k = true -> highlighted (write_form now f u) k = true.
Proof.
  intros H. rewrite write_form_eq.
  destruct (normalize _ _) as [p| |]; try exact H.
  unfold highlighted, write in *; cbn [updatedFields].
  destruct (decide (to_string (fst p) = k)) as [->|Hne].
  - now rewrite lookup_insert_eq.
  - now rewrite lookup_insert_ne.
Qed.

Lemma write_keeps_timers f u x :
  In x (timers f) -> In x (timers (write_form now f u)).
Proof.
  intros H. rewrite write_form_eq.
  destruct (normalize _ _) as [p| |]; try exact H.
  cbn [write timers]. apply in_or_app. now left.
Qed.

Lemma write_elsewhere f u k :
  ~ writes_to u k -> formData (write_form now f u) !! k = formData f !! k.
Proof.
  intros H. rewrite write_form_eq.
  destruct (normalize _ _) as [p| |] eqn:E; try reflexivity.
  cbn [write formData].
  apply lookup_insert_ne. intros Hk. apply H. now exists p.
Qed.

Lemma writes_keep_highlight us : forall f k,
  highlighted f k = true -> highlighted (foldl (write_form now) f us) k = true.
Proof.
  induction us as [|u us IH]; intros f k H; [exact H|].
  cbn [foldl]. apply IH. now apply write_keeps_highlight.
Qed.

Lemma writes_keep_timers us : forall f x,
  In x (timers f) -> In x (timers (foldl (write_form now) f us)).
Proof.
  induction us as [|u us IH]; intros f x H; [exact H|].
  cbn [foldl]. apply IH. now apply write_keeps_timers.
Qed.

Lemma writes_elsewhere us k : forall f,
  Forall (fun u => ~ writes_to u k) us ->
  formData (foldl (write_form now) f us) !! k = formData f !! k.
Proof.
  induction us as [|u us IH]; intros f H; [reflexivity|].
  inversion H as [|? ? Hu Hus]; subst. cbn [foldl].
  rewrite (IH _ Hus). now apply write_elsewhere.
Qed.

Lemma write_sentiment_good f :
  write_form now f sentiment_good
  = {| formData := <["hcpSentiment" := JStr "Positive"]> (formData f);
       updatedFields := <["hcpSentiment" := true]> (updatedFields f);
       timers := timers f ++ [(now + highlight_ms, "hcpSentiment")] |}.
Proof. reflexivity. Qed.

End FormWrites.

(** C4. A FORM_POPULATE envelope whose [field_updates] holds the element
    [{field: "sentiment", value: "good"}] among elements with properties,
    applied to any state of the form, the empty one included: the effect
    does not raise, the field hcpSentiment is highlighted and its timer is
    set, one assistant message marked as a form update is appended, and,
    when no later element of the list writes to the same field, the form
    holds the canonical value "Positive" under hcpSentiment. The alias and
    the value arrive as sent and are normalised by [handleFormUpdate], when
    the effect applies them. *)
Theorem populate_sentiment_good_writes_positive
    (JSON_parse : string -> option jsval)
    (now : nat) (r : response) (c : chat) (f : form)
    (props : list (string * jsval)) (before after : list jsval) :
  truthy (payload r) = true ->
  differs_from_last r c = true ->
  parse_payload JSON_parse (payload r) = JObj props ->
  obj_get props "response_type" = JStr "FORM_POPULATE" ->
  obj_get props "field_updates" = JArr (before ++ sentiment_good :: after) ->
  Forall entry before ->
  Forall entry after ->
  exists m c' f',
    effect JSON_parse (Some (handleFormUpdate now)) now (Some r) c f
      = Ok (c', f')
    /\ highlighted f' "hcpSentiment" = true
    /\ In (now + highlight_ms, "hcpSentiment") (timers f')
    /\ (Forall (fun u => ~ writes_to u "hcpSentiment") after ->
        formData f' !! "hcpSentiment" = Some (JStr "Positive"))
    /\ messages c' = (messages c ++ [m])%list
    /\ type m = assistant
    /\ isFormUpdate m = true
    /\ responseType m = Some "FORM_POPULATE"
    /\ content m
       = js_or (obj_get props "message")
           (JStr "I've populated the form with your interaction information.")
    /\ normalize (JStr "sentiment") (JStr "good")
       = Ok (JStr "hcpSentiment", JStr "Positive").
Proof.
  intros Htruthy Hnew Hparsed Hkind Hupdates Hbefore Hafter.
  assert (Hentries : Forall entry (before ++ sentiment_good :: after)).
  { apply Forall_app. split; [exact Hbefore|].
    constructor; [split; discriminate | exact Hafter]. }
  destruct (effect_populate JSON_parse (handleFormUpdate now) now r c f props
              _ Htruthy Hnew Hparsed Hkind Hupdates Hentries)
    as (m & c' & Heff & Hlog & Hrole & Hform & _ & Hresp & Hcontent & _).
  exists m, c'. eexists. split; [exact Heff|].
  change (write_or_skip (handleFormUpdate now)) with (write_form now).
  rewrite foldl_app. cbn [foldl]. rewrite write_sentiment_good.
  split; [|split; [|split]].
  - apply writes_keep_highlight. unfold highlighted; cbn [updatedFields].
    now rewrite lookup_insert_eq.
  - apply writes_keep_timers. cbn [timers]. apply in_or_app. right. now left.
  - intros Hlater. rewrite (writes_elsewhere now after _ _ Hlater).
    cbn [formData]. apply lookup_insert_eq.
  - repeat split; assumption || reflexivity.
Qed.

(** The effect reads the keys [response_type] and [field_updates]: the same
    envelope under the keys responseType and fieldUpdates is taken for a plain
    message, and the form is left alone. *)
Example camel_case_envelope_is_plain :
  effect rejects_all (Some (handleFormUpdate 5)) 5
    (Some {| ref := 1;
             payload := JObj [ ("responseType", JStr "FORM_POPULATE");
                               ("fieldUpdates", JArr [sentiment_good]);
                               ("message", JStr "ok") ] |})
    (Chat.initial 0) (Form.initial "2025-01-15" "10:30")
  = Ok ({| messages := messages (Chat.initial 0) ++ [plain 5 (JStr "ok")];
           inputMessage := EmptyString;
           isLoading := false;
           lastProcessedResponse :=
             Some {| ref := 1;
                     payload := JObj [ ("responseType", JStr "FORM_POPULATE");
                                       ("fieldUpdates", JArr [sentiment_good]);
                                       ("message", JStr "ok") ] |} |},
        Form.initial "2025-01-15" "10:30").
Proof. reflexivity. Qed.

Lemma populate_sentiment_good_witness :
  exists m c' f',
    effect rejects_all (Some (handleFormUpdate 5)) 5
      (Some {| ref := 1; payload := populate_sentiment |})
      (Chat.initial 0) (Form.initial "2025-01-15" "10:30") = Ok (c', f')
    /\ highlighted f' "hcpSentiment" = true
    /\ formData f' !! "hcpSentiment" = Some (JStr "Positive")
    /\ messages c' = (messages (Chat.initial 0) ++ [m])%list
    /\ content m = JStr "ok".
Proof.
  destruct (populate_sentiment_good_writes_positive rejects_all 5
              {| ref := 1; payload := populate_sentiment |}
              (Chat.initial 0) (Form.initial "2025-01-15" "10:30")
              [ ("response_type", JStr "FORM_POPULATE");
                ("field_updates", JArr [sentiment_good]);
                ("message", JStr "ok") ]
              [] [] eq_refl eq_refl eq_refl eq_refl eq_refl
              (List.Forall_nil _) (List.Forall_nil _))
    as (m & c' & f' & Heff & Hflag & _ & Hvalue & Hlog & _ & _ & _ & Hcontent & _).
  exists m, c', f'. split; [exact Heff|]. split; [exact Hflag|].
  split; [apply Hvalue; constructor|]. split; [exact Hlog|exact Hcontent].
Defined.

Lemma error_envelope_witness :
  exists m c',
    effect rejects_all (Some (handleFormUpdate 5)) 5
      (Some {| ref := 1;
               payload := JObj [ ("response_type", JStr "ERROR");
                                 ("message", JStr "No such record") ] |})
      (Chat.initial 0) (Form.initial "2025-01-15" "10:30")
    = Ok (c', Form.initial "2025-01-15" "10:30")
    /\ messages c' = (messages (Chat.initial 0) ++ [m])%list
    /\ isError m = true
    /\ content m = JStr "No such record".
Proof.
  destruct (error_envelope_appends_one_error_message rejects_all
              (Some (handleFormUpdate 5)) 5
              {| ref := 1;
                 payload := JObj [ ("response_type", JStr "ERROR");
                                   ("message", JStr "No such record") ] |}
              (Chat.initial 0) (Form.initial "2025-01-15" "10:30")
              eq_refl eq_refl eq_refl)
    as (m & c' & Heff & Hlog & _ & Herr & _ & Hcontent & _).
  exists m, c'. repeat split; assumption.
Defined.

Lemma unparseable_text_witness :
  rejects_all "Service is busy" = None
  /\ effect rejects_all (Some (handleFormUpdate 5)) 5
       (Some {| ref := 1; payload := JStr "Service is busy" |})
       (Chat.initial 0) (Form.initial "2025-01-15" "10:30")
     = Ok ({| messages := messages (Chat.initial 0)
                           ++ [plain 5 (JStr "Service is busy")];
              inputMessage := inputMessage (Chat.initial 0);
              isLoading := false;
              lastProcessedResponse :=
                Some {| ref := 1; payload := JStr "Service is busy" |} |},
           Form.initial "2025-01-15" "10:30").
Proof.
  split; [reflexivity|].
  apply (unparseable_text_becomes_plain_message rejects_all
           (Some (handleFormUpdate 5)) 5 1 "Service is busy"
           (Chat.initial 0) (Form.initial "2025-01-15" "10:30"));
    [reflexivity | discriminate | reflexivity].
Defined.

(** C10, as stated, fails on a list that holds a [null]: the logging line
    reads [update.field] before the [try], so the effect raises a TypeError
    at that element. No confirmation is appended, and the pair that follows
    is not applied. *)
Lemma null_update_raises_outside_try :
  effect rejects_all (Some (handleFormUpdate 5)) 5
    (Some {| ref := 1;
             payload :=
               JObj [ ("response_type", JStr "FORM_POPULATE");
                      ("field_updates", JArr [JNull; sentiment_good]);
                      ("message", JStr "ok") ] |})
    (Chat.initial 0) (Form.initial "2025-01-15" "10:30")
  = Throw TypeError.
Proof. reflexivity. Qed.

Lemma populate_isolates_failing_updates_witness :
  exists m c',
    effect rejects_all (Some counting) 5
      (Some {| ref := 1;
               payload :=
                 JObj [ ("response_type", JStr "FORM_POPULATE");
                        ("field_updates",
                         JArr [ sentiment_good;
                                JObj [("field", JStr "date");
                                      ("value", JStr "2025-01-15")];
                                JObj [("field", JStr "sentiment");
                                      ("value", JNum "5")];
                                JObj [("field", JStr "type");
                                      ("value", JStr "call")] ]) ] |})
      (Chat.initial 0) 0
    = Ok (c', 3)
    /\ messages c' = (messages (Chat.initial 0) ++ [m])%list
    /\ responseType m = Some "FORM_POPULATE".
Proof.
  destruct (populate_isolates_failing_updates rejects_all counting 5
              {| ref := 1;
                 payload :=
                   JObj [ ("response_type", JStr "FORM_POPULATE");
                          ("field_updates",
                           JArr [ sentiment_good;
                                  JObj [("field", JStr "date");
                                        ("value", JStr "2025-01-15")];
                                  JObj [("field", JStr "sentiment");
                                        ("value", JNum "5")];
                                  JObj [("field", JStr "type");
                                        ("value", JStr "call")] ]) ] |}
              (Chat.initial 0) 0 _ _ eq_refl eq_refl eq_refl eq_refl eq_refl)
    as (m & c' & Heff & Hlog & _ & _ & _ & Hresp & _).
  - repeat constructor; discriminate.
  - exists m, c'. repeat split; assumption.
Defined.

(** ** Requests and responses of a session *)

Lemma strict_eq_refl r : strict_eq r r = true.
Proof.
  unfold strict_eq. destruct (payload r) as [| |b|n|t|items|props|n]; cbn;
    try reflexivity.
  - now destruct b.
  - apply String.eqb_refl.
  - apply String.eqb_refl.
  - apply Nat.eqb_refl.
  - apply Nat.eqb_refl.
  - apply Nat.eqb_refl.
Qed.

Lemma deps_unchanged a : deps_changed a a = false.
Proof. destruct a as [r|]; cbn; [now rewrite strict_eq_refl | reflexivity]. Qed.






(** C6. A chat request that fails does not release the gate. The thunk is
    rejected, the promise that [handleSendMessage] awaits resolves all the
    same, so its [catch] does not run; the store keeps its [chatResponse], so
    the effect does not run either. [isLoading] stays true, no message tells
    the user, and the next submission returns at the gate: the second
    request is never issued. *)
Theorem failed_request_leaves_gate_closed :
  match run rejects_all
          [ (0, Typed "Met Dr. Smith today"); (1, Submitted);
            (500, Settled 1 (HttpFailed None));
            (600, Typed "Met Dr. Smith today"); (601, Submitted) ]
          (start 0 "2025-01-15" "10:30") with
  | Ok s =>
      isLoading (ui s) = true
      /\ status (redux s) = failed
      /\ issued s = 1
      /\ map content (messages (ui s))
         = [JStr greeting; JStr "Met Dr. Smith today"]
  | _ => False
  end.
Proof. vm_compute. repeat split; reflexivity. Qed.

(** After a rejected request the gate stays closed for good: whatever is
    typed next, a submission returns at the gate. *)
Lemma rejected_request_never_reopens_gate
    (JSON_parse : string -> option jsval)
    (now later token : nat) (data : option jsval) (s s1 : session) :
  handleSendMessage_begin now (ui s) <> None ->
  step JSON_parse now Submitted s = Ok s1 ->
  exists s2,
    step JSON_parse later (Settled token (HttpFailed data)) s1 = Ok s2
    /\ isLoading (ui s2) = true
    /\ messages (ui s2) = messages (ui s1)
    /\ forall at_ text, handleSendMessage_begin at_
          {| messages := messages (ui s2); inputMessage := text;
             isLoading := isLoading (ui s2);
             lastProcessedResponse := lastProcessedResponse (ui s2) |} = None.
Proof.
  intros Hopen Hstep. unfold step in Hstep.
  destruct (handleSendMessage_begin now (ui s)) as [c|] eqn:Hbegin;
    [|contradiction].
  injection Hstep as <-.
  assert (Hloading : isLoading c = true).
  { unfold handleSendMessage_begin in Hbegin.
    destruct (_ || _); [discriminate|]. now injection Hbegin as <-. }
  unfold step. cbn [redux ui hcp issued].
  assert (Hkept : forall st, chatResponse
            (reducer st (chatWithAgentAsync (HttpFailed data)))
          = chatResponse st) by (intros st; now destruct data).
  rewrite Hkept, deps_unchanged.
  eexists. split; [reflexivity|]. cbn [ui handleSendMessage_resume isLoading
    messages lastProcessedResponse].
  destruct data; cbn [chatWithAgentAsync handleSendMessage_resume isLoading
    messages]; (split; [exact Hloading|]; split; [reflexivity|]);
    intros at_ text; unfold handleSendMessage_begin; cbn [isLoading];
    rewrite Hloading; now rewrite orb_true_r.
Qed.

(** C7, as stated, fails on the empty text: [JSON.parse] rejects it, but the
    effect stops at its guard, since the empty string is falsy. No message is
    surfaced (and the gate stays closed). *)
Lemma empty_text_payload_not_surfaced :
  rejects_all EmptyString = None
  /\ match run rejects_all
             [ (0, Typed "hello"); (1, Submitted);
               (500, Settled 1 (HttpOk {| ref := 1;
                                          payload := JStr EmptyString |})) ]
             (start 0 "2025-01-15" "10:30") with
     | Ok s =>
         chatResponse (redux s)
           = Some {| ref := 1; payload := JStr EmptyString |}
         /\ map content (messages (ui s)) = [JStr greeting; JStr "hello"]
         /\ isLoading (ui s) = true
     | _ => False
     end.
Proof. vm_compute. repeat split; reflexivity. Qed.

(** * Further properties of the code *)

(** ** [handleFormUpdate]: resolution of aliases and values *)

(** X1. On two strings neither of which, in lower case, names a property
    that object literals inherit (constructor, __proto__),
    [handleFormUpdate] resolves the pair to a field and a value that are
    strings and that it resolves to themselves: resolving twice is resolving
    once, and a canonical pair is left as it is. *)
Theorem resolving_twice_is_resolving_once (f v : string) :
  inherited (toLowerCase f) = None ->
  inherited (toLowerCase v) = None ->
  exists c w, normalize (JStr f) (JStr v) = Ok (JStr c, JStr w)
              /\ normalize (JStr c) (JStr w) = Ok (JStr c, JStr w).
Proof. apply normalize_idempotent. Qed.

Lemma resolving_twice_is_resolving_once_witness :
  exists c w, normalize (JStr "Mood") (JStr "HAPPY") = Ok (JStr c, JStr w)
              /\ normalize (JStr c) (JStr w) = Ok (JStr c, JStr w).
Proof.
  apply (resolving_twice_is_resolving_once "Mood" "HAPPY"); reflexivity.
Defined.

(** The first half of [handleFormUpdate] raises in two cases only, each
    time a TypeError: the field is not a string, or the field resolves to
    hcpSentiment or interactionType and the value is not a string. *)
Lemma normalize_raises_exactly (field value : jsval) :
  (forall e, normalize field value = Throw e -> e = TypeError)
  /\ (normalize field value = Throw TypeError
      <-> is_string field = false
          \/ exists f, field = JStr f /\ has_value_table f = true
                       /\ is_string value = false).
Proof.
  destruct field as [| | | |f| | |];
    try (split; [intros e [= <-]; reflexivity|];
         split; [intros _; now left | reflexivity]).
  rewrite normalize_string_field.
  destruct (has_value_table f) eqn:Htable.
  - destruct value as [| | | |v| | |];
      try (split; [intros e [= <-]; reflexivity|];
           split; [intros _; right; exists f; repeat split; assumption
                  | reflexivity]).
    split; [discriminate|]. split; [discriminate|].
    intros [H|(f' & _ & _ & H)]; discriminate H.
  - split; [discriminate|]. split; [discriminate|].
    intros [H|(f' & [= <-] & H & _)]; [discriminate H | congruence].
Qed.

(** What a value table gives for a string prints: an entry of the table, a
    built-in of [Object.prototype] or the string itself. *)
Lemma revalue_prints t v :
  In t [sentimentMap; typeMap] -> prints (revalue t v) = true.
Proof.
  intros Ht. unfold revalue, obj_get.
  destruct (own t (toLowerCase v)) as [x|] eqn:E.
  - simpl in Ht. destruct Ht as [<-|[<-|[]]]; table_values E; reflexivity.
  - destruct (inherited (toLowerCase v)); reflexivity.
Qed.

(** X2. [handleFormUpdate] raises in three cases only, each time a
    TypeError. Before anything is written: the field is not a string, or the
    field resolves to hcpSentiment or interactionType and the value is not a
    string. After the form is written, at the last logging line: the field
    is a string that resolves to another field and the value does not print
    (an object with a property toString of its own, or an array that holds
    one). *)
Theorem handleFormUpdate_raises_exactly
    (now : nat) (field value : jsval) (f : form) :
  (handleFormUpdate now field value f = Throw TypeError
   <-> is_string field = false
       \/ exists s, field = JStr s /\ has_value_table s = true
                    /\ is_string value = false)
  /\ (forall f',
        handleFormUpdate now field value f = ThrowAfter TypeError f'
        <-> exists s, field = JStr s /\ has_value_table s = false
                      /\ prints value = false
                      /\ f' = write now (resolved s) value f)
  /\ (forall e f',
        handleFormUpdate now field value f = Throw e
        \/ handleFormUpdate now field value f = ThrowAfter e f' ->
        e = TypeError).
Proof.
  destruct field as [| | | |s| | |];
    try (split; [split; [intros _; now left | reflexivity]|];
         split; [intros f'; split; [discriminate | intros (s & [=] & _)]|];
         intros e f' [[= <-]|[=]]; reflexivity).
  destruct (has_value_table s) eqn:Htable.
  - destruct value as [| | | |v| | |];
      try (rewrite (handleFormUpdate_raises now (JStr s) _ f)
             by (now rewrite normalize_string_field, Htable);
           split; [split; [intros _; right; exists s; repeat split; assumption
                          | reflexivity]|];
           split; [intros f'; split;
                     [discriminate
                     | intros (s' & [= <-] & H & _); congruence]|];
           intros e f' [[= <-]|[=]]; reflexivity).
    assert (Hn := normalize_string_field s (JStr v)). rewrite Htable in Hn.
    rewrite (handleFormUpdate_written _ _ _ _ _ Hn). cbn [snd].
    assert (Hp : prints (if is_str (resolved s) "hcpSentiment"
                         then revalue sentimentMap v
                         else revalue typeMap v) = true).
    { destruct (is_str (resolved s) "hcpSentiment");
        apply revalue_prints; simpl; tauto. }
    rewrite Hp.
    split; [split; [discriminate
                   | intros [H|(s' & _ & _ & H)]; discriminate H]|].
    split; [intros f'; split;
              [discriminate | intros (s' & [= <-] & H & _); congruence]|].
    intros e f' [H|H]; discriminate H.
  - assert (Hn := normalize_string_field s value). rewrite Htable in Hn.
    rewrite (handleFormUpdate_written _ _ _ _ _ Hn). cbn [fst snd].
    destruct (prints value) eqn:Hp.
    + split; [split; [discriminate
                     | intros [H|(s' & [= <-] & H & _)];
                         [discriminate H | congruence]]|].
      split; [intros f'; split;
                [discriminate | intros (s' & _ & _ & H & _); congruence]|].
      intros e f' [H|H]; discriminate H.
    + split; [split; [discriminate
                     | intros [H|(s' & [= <-] & H & _)];
                         [discriminate H | congruence]]|].
      split; [intros f'; split;
                [intros [= <-]; exists s; repeat split; assumption
                | intros (s' & [= <-] & _ & _ & ->); reflexivity]|].
      intros e f' [H|H]; [discriminate H | now injection H].
Qed.

Lemma handleFormUpdate_raises_exactly_witness :
  handleFormUpdate 0 (JStr "attendees")
    (JObj [("toString", JStr "Dr. Lee")]) (Form.initial "2025-01-15" "10:30")
  = ThrowAfter TypeError
      (write 0 (JStr "attendees") (JObj [("toString", JStr "Dr. Lee")])
         (Form.initial "2025-01-15" "10:30")).
Proof.
  apply (handleFormUpdate_raises_exactly 0 (JStr "attendees")
           (JObj [("toString", JStr "Dr. Lee")])
           (Form.initial "2025-01-15" "10:30")).
  exists "attendees". repeat split.
Defined.

Lemma table_value_truthy t k x :
  In t [fieldMapping; sentimentMap; typeMap] ->
  own t k = Some x -> truthy x = true /\ is_string x = true.
Proof.
  intros Ht H. simpl in Ht.
  destruct Ht as [<-|[<-|[<-|[]]]]; table_values H; split; reflexivity.
Qed.

(** X3. An alias of the table is recognised in any letter case: two spellings
    of a known alias that differ in case only are resolved alike, with every
    value. *)
Theorem known_alias_ignores_case (f f' : string) (c value : jsval) :
  toLowerCase f = toLowerCase f' ->
  own fieldMapping (toLowerCase f) = Some c ->
  resolved f = c /\ normalize (JStr f) value = normalize (JStr f') value.
Proof.
  intros Hcase Hown.
  assert (Hc : forall g, toLowerCase g = toLowerCase f -> resolved g = c).
  { intros g Hg. unfold resolved, obj_get. rewrite Hg, Hown. unfold js_or.
    destruct (table_value_truthy fieldMapping _ _ (or_introl eq_refl) Hown)
      as [-> _]. reflexivity. }
  split; [now apply Hc|].
  rewrite !normalize_string_field. unfold has_value_table.
  rewrite (Hc f eq_refl), (Hc f' (eq_sym Hcase)). reflexivity.
Qed.

Lemma known_alias_ignores_case_witness :
  resolved "Follow_Up" = JStr "followUpActions"
  /\ normalize (JStr "Follow_Up") (JStr "Call on Monday")
     = normalize (JStr "FOLLOW_UP") (JStr "Call on Monday").
Proof.
  apply (known_alias_ignores_case "Follow_Up" "FOLLOW_UP"); reflexivity.
Defined.

(** X4. A sentiment or an interaction type that the value tables know is
    replaced by its canonical spelling whatever its letter case: the result
    is one of Positive, Neutral, Negative, respectively one of Meeting, Call,
    Email, Visit, Conference, Other. *)
Theorem known_value_is_canonicalised (v : string) (w : jsval) :
  (own sentimentMap (toLowerCase v) = Some w ->
   normalize (JStr "sentiment") (JStr v) = Ok (JStr "hcpSentiment", w)
   /\ In w [JStr "Positive"; JStr "Neutral"; JStr "Negative"])
  /\ (own typeMap (toLowerCase v) = Some w ->
      normalize (JStr "type") (JStr v) = Ok (JStr "interactionType", w)
      /\ In w [JStr "Meeting"; JStr "Call"; JStr "Email"; JStr "Visit";
               JStr "Conference"; JStr "Other"]).
Proof.
  split; intros Hown.
  - split.
    + change (normalize (JStr "sentiment") (JStr v))
        with (@Ok (jsval * jsval)
                (JStr "hcpSentiment", revalue sentimentMap v)).
      unfold revalue, obj_get, js_or. rewrite Hown.
      destruct (table_value_truthy sentimentMap _ _
                  (or_intror (or_introl eq_refl)) Hown) as [-> _].
      reflexivity.
    + table_values Hown; simpl; tauto.
  - split.
    + change (normalize (JStr "type") (JStr v))
        with (@Ok (jsval * jsval)
                (JStr "interactionType", revalue typeMap v)).
      unfold revalue, obj_get, js_or. rewrite Hown.
      destruct (table_value_truthy typeMap _ _
                  (or_intror (or_intror (or_introl eq_refl))) Hown) as [-> _].
      reflexivity.
    + table_values Hown; simpl; tauto.
Qed.

(** What an update writes and what it leaves. *)
Lemma handleFormUpdate_frame
    (now : nat) (field value : jsval) (f f' : form) :
  handleFormUpdate now field value f = Ok f' ->
  exists k w,
    normalize field value = Ok (k, w)
    /\ formData f' !! to_string k = Some w
    /\ (forall k', k' <> to_string k ->
          formData f' !! k' = formData f !! k'
          /\ highlighted f' k' = highlighted f k')
    /\ timers f' = (timers f ++ [(now + highlight_ms, to_string k)])%list.
Proof.
  intros H.
  destruct (normalize_cases field value) as [([k w] & s & Hp & _)|Hr];
    [|rewrite (handleFormUpdate_raises _ _ _ _ Hr) in H; discriminate H].
  rewrite (handleFormUpdate_written _ _ _ _ _ Hp) in H.
  destruct (prints (snd (k, w))); [|discriminate H].
  injection H as <-. exists k, w.
  split; [exact Hp|]. cbn [write fst snd formData timers].
  split; [apply lookup_insert_eq|]. split; [|reflexivity].
  intros k' Hne. unfold highlighted. cbn [write updatedFields].
  rewrite !lookup_insert_ne by congruence. split; reflexivity.
Qed.

(** X5. An update writes one field only: the value and the flag of every
    other field stay as they were, every timer that was pending still is,
    and one timer is added. *)
Theorem update_touches_one_field
    (now : nat) (field value : jsval) (f f' : form) :
  handleFormUpdate now field value f = Ok f' ->
  exists k w,
    normalize field value = Ok (k, w)
    /\ formData f' !! to_string k = Some w
    /\ (forall k', k' <> to_string k ->
          formData f' !! k' = formData f !! k'
          /\ highlighted f' k' = highlighted f k')
    /\ timers f' = (timers f ++ [(now + highlight_ms, to_string k)])%list.
Proof. apply handleFormUpdate_frame. Qed.

Lemma update_touches_one_field_witness :
  exists k w,
    normalize (JStr "doctor") (JStr "Dr. Rao") = Ok (k, w)
    /\ to_string k = "hcpName" /\ w = JStr "Dr. Rao".
Proof.
  destruct (handleFormUpdate 0 (JStr "doctor") (JStr "Dr. Rao")
              (Form.initial "2025-01-15" "10:30")) as [f'| |] eqn:E;
    try discriminate E.
  destruct (update_touches_one_field 0 (JStr "doctor") (JStr "Dr. Rao")
              (Form.initial "2025-01-15" "10:30") f' E)
    as (k & w & Hn & _).
  exists k, w. split; [exact Hn|].
  vm_compute in Hn. injection Hn as <- <-. split; reflexivity.
Defined.

(** ** The highlight flags over time *)

Lemma existsb_pointwise {A} (P Q : A -> bool) l :
  (forall x, P x = Q x) -> existsb P l = existsb Q l.
Proof. intros H. induction l as [|x l IH]; simpl; [reflexivity|]. now rewrite H, IH. Qed.

Lemma existsb_either {A} (P Q : A -> bool) l :
  existsb (fun x => P x || Q x) l = existsb P l || existsb Q l.
Proof.
  induction l as [|x l IH]; simpl; [reflexivity|]. rewrite IH.
  destruct (P x), (Q x), (existsb P l), (existsb Q l); reflexivity.
Qed.

Lemma pending_after_two_steps (t1 t2 : nat) (l : list (nat * string)) :
  t1 <= t2 ->
  List.filter (fun p => negb (fst p <=? t2)%nat)
    (List.filter (fun p => negb (fst p <=? t1)%nat) l)
  = List.filter (fun p => negb (fst p <=? t2)%nat) l.
Proof.
  intros Hle. induction l as [|[d k] l IH]; simpl; [reflexivity|].
  destruct (Nat.leb_spec d t1), (Nat.leb_spec d t2); simpl;
    try (destruct (Nat.leb_spec d t2); simpl); try lia; now rewrite IH.
Qed.

(** X6. Letting the clock run to [t1] and then to [t2] leaves the form as
    letting it run to [t2] at once: the timers that fire in between clear the
    same flags, and the same timers stay pending. *)
Theorem advance_in_two_steps (t1 t2 : nat) (f : form) :
  t1 <= t2 -> advance t2 (advance t1 f) = advance t2 f.
Proof.
  intros Hle. unfold advance. cbn [formData updatedFields timers].
  f_equal; [|now apply pending_after_two_steps].
  apply map_eq. intros k. rewrite !expired_flags_lookup, !existsb_filter.
  rewrite (existsb_pointwise
             (fun x => (snd x =? k)%string && (fst x <=? t2)%nat) 
             (fun x => ((snd x =? k)%string && (fst x <=? t2)%nat
                        && negb (fst x <=? t1)%nat)
                       || ((snd x =? k)%string && (fst x <=? t1)%nat))).
  - rewrite existsb_either.
    destruct (existsb _ (timers f)), (existsb _ (timers f)); reflexivity.
  - intros [d k']. cbn [fst snd].
    destruct (k' =? k)%string; cbn [andb orb]; [|reflexivity].
    destruct (Nat.leb_spec d t1), (Nat.leb_spec d t2);
      cbn; try reflexivity; lia.
Qed.

Lemma advance_in_two_steps_witness :
  match handleFormUpdate 0 (JStr "topics") (JStr "Dosing")
          (Form.initial "2025-01-15" "10:30") with
  | Ok f => advance 4000 (advance 2500 f) = advance 4000 f
  | _ => False
  end.
Proof.
  destruct (handleFormUpdate 0 (JStr "topics") (JStr "Dosing")
              (Form.initial "2025-01-15" "10:30")) as [f| |] eqn:E;
    try discriminate E.
  apply (advance_in_two_steps 2500 4000 f). lia.
Defined.

Lemma advance_keeps_invariant t f :
  every_flag_has_timer f -> every_flag_has_timer (advance t f).
Proof.
  intros Hinv k Hk. rewrite highlighted_advance in Hk.
  apply andb_true_iff in Hk. destruct Hk as [Hon Hnone].
  destruct (Hinv k Hon) as [due Hin]. exists due.
  unfold advance; cbn [timers]. apply filter_In. split; [exact Hin|].
  cbn [fst]. destruct (Nat.leb_spec due t) as [Hdue|]; [|reflexivity].
  exfalso. apply negb_true_iff in Hnone.
  assert (E : existsb (due_for k t) (timers f) = true).
  { apply existsb_exists. exists (due, k). split; [exact Hin|].
    unfold due_for; cbn [fst snd]. rewrite String.eqb_refl.
    now apply Nat.leb_le. }
  congruence.
Qed.

Lemma update_keeps_invariant now field value f f' :
  handleFormUpdate now field value f = Ok f' ->
  every_flag_has_timer f -> every_flag_has_timer f'.
Proof.
  intros Hupd Hinv k Hk.
  destruct (handleFormUpdate_frame now field value f f' Hupd)
    as (key & w & _ & _ & Hframe & ->).
  destruct (decide (k = to_string key)) as [->|Hne].
  - exists (now + highlight_ms). apply in_or_app. right. now left.
  - destruct (Hframe k Hne) as [_ Hflag]. rewrite Hflag in Hk.
    destruct (Hinv k Hk) as [due Hin]. exists due. apply in_or_app. now left.
Qed.

Lemma write_keeps_invariant now k w f :
  every_flag_has_timer f -> every_flag_has_timer (write now k w f).
Proof.
  intros Hinv k' Hk. cbn [write timers].
  destruct (decide (k' = to_string k)) as [->|Hne].
  - exists (now + highlight_ms). apply in_or_app. right. now left.
  - assert (Hon : highlighted f k' = true).
    { unfold highlighted, write in *. cbn [updatedFields] in Hk.
      rewrite lookup_insert_ne in Hk by congruence. exact Hk. }
    destruct (Hinv k' Hon) as [due Hin]. exists due. apply in_or_app. now left.
Qed.

Lemma raised_update_keeps_invariant now field value f e f' :
  handleFormUpdate now field value f = ThrowAfter e f' ->
  every_flag_has_timer f -> every_flag_has_timer f'.
Proof.
  intros H.
  destruct (normalize_cases field value) as [(p & s & Hp & _)|Hr];
    [|rewrite (handleFormUpdate_raises _ _ _ _ Hr) in H; discriminate H].
  rewrite (handleFormUpdate_written _ _ _ _ _ Hp) in H.
  destruct (prints (snd p)); [discriminate H|].
  injection H as _ <-. apply write_keeps_invariant.
Qed.

(** X7. Every flag that is set has a timer pending that will clear it: this
    holds in the initial state of the form and after a reset, and every
    operation on the form keeps it: an update by the assistant, whether the
    call returns or raises after it has written, an edit by hand, a choice
    of sentiment, a voice result, and the passing of time. *)
Theorem every_flag_has_timer_invariant :
  (forall today clock, every_flag_has_timer (Form.initial today clock))
  /\ (forall today f, every_flag_has_timer (resetForm today f))
  /\ (forall now field value f f',
        handleFormUpdate now field value f = Ok f' ->
        every_flag_has_timer f -> every_flag_has_timer f')
  /\ (forall t f, every_flag_has_timer f -> every_flag_has_timer (advance t f))
  /\ (forall name value f,
        every_flag_has_timer f -> every_flag_has_timer (handleChange name value f))
  /\ (forall sentiment f,
        every_flag_has_timer f ->
        every_flag_has_timer (handleSentimentChange sentiment f))
  /\ (forall i transcripts f,
        every_flag_has_timer f -> every_flag_has_timer (onresult i transcripts f))
  /\ (forall now field value f e f',
        handleFormUpdate now field value f = ThrowAfter e f' ->
        every_flag_has_timer f -> every_flag_has_timer f').
Proof.
  split; [intros today clock k Hk; discriminate Hk|].
  split; [intros today f k Hk; discriminate Hk|].
  split; [exact update_keeps_invariant|].
  split; [exact advance_keeps_invariant|].
  split; [intros; assumption|].
  split; [intros; assumption|].
  split; [intros; assumption|].
  exact raised_update_keeps_invariant.
Qed.

(** X8. No field stays highlighted for ever, and time alone highlights
    nothing: where every flag has its timer, once the clock has reached the
    last pending timer no field is highlighted; and a field that is
    highlighted after the clock ran was highlighted before, with the values
    of the form untouched. *)
Theorem highlights_expire (t : nat) (f : form) :
  every_flag_has_timer f ->
  (forall due k, In (due, k) (timers f) -> due <= t) ->
  (forall k, highlighted (advance t f) k = false)
  /\ (forall t' k, highlighted (advance t' f) k = true -> highlighted f k = true)
  /\ (forall t', formData (advance t' f) = formData f).
Proof.
  intros Hinv Hlast. split; [|split; [|reflexivity]].
  - intros k. rewrite highlighted_advance.
    destruct (highlighted f k) eqn:Hon; [|reflexivity]. cbn [andb].
    destruct (Hinv k Hon) as [due Hin]. apply negb_false_iff.
    apply existsb_exists. exists (due, k). split; [exact Hin|].
    unfold due_for; cbn [fst snd]. rewrite String.eqb_refl.
    apply Nat.leb_le. now apply (Hlast due k).
  - intros t' k. rewrite highlighted_advance. intros H.
    now apply andb_true_iff in H.
Qed.

Lemma highlights_expire_witness :
  match handleFormUpdate 100 (JStr "materials") (JStr "Brochure")
          (Form.initial "2025-01-15" "10:30") with
  | Ok f =>
      highlighted f "materialsShared" = true
      /\ forall k, highlighted (advance 3100 f) k = false
  | _ => False
  end.
Proof.
  destruct (handleFormUpdate 100 (JStr "materials") (JStr "Brochure")
              (Form.initial "2025-01-15" "10:30")) as [f| |] eqn:E;
    try discriminate E.
  split; [vm_compute in E; injection E as <-; reflexivity|].
  apply (highlights_expire 3100 f).
  - apply (update_keeps_invariant _ _ _ _ _ E). intros k Hk. discriminate Hk.
  - vm_compute in E. injection E as <-. intros due k [[= <- <-]|[]].
    unfold highlight_ms. lia.
Defined.

(** ** Edits, reset and submission *)

Lemma field_insert_other (fd : gmap string jsval) k v c :
  c <> k -> field (<[k := v]> fd) c = field fd c.
Proof. intros H. unfold field. now rewrite lookup_insert_ne by congruence. Qed.

(** [handleSubmit] reads the eleven canonical fields and nothing else. *)
Lemma handleSubmit_reads_canonical (b : bool) (fd fd' : gmap string jsval) :
  (forall c, In c canonical_fields -> field fd' c = field fd c) ->
  handleSubmit b fd' = handleSubmit b fd.
Proof.
  intros H. unfold handleSubmit.
  rewrite !H by (simpl; tauto). reflexivity.
Qed.

(** X9. After [resetForm] the form holds the eleven canonical fields and no
    other key, all empty but the date; no field is highlighted then or at any
    later instant, although the timers that were pending still fire; and a
    submission is refused for want of a name. *)
Theorem resetForm_clears_everything (today : string) (f : form) :
  (forall k, ~ In k canonical_fields ->
             formData (resetForm today f) !! k = None)
  /\ (forall k, In k canonical_fields ->
               formData (resetForm today f) !! k
               = Some (JStr (if (k =? "date")%string then today
                             else EmptyString)))
  /\ (forall t k, highlighted (advance t (resetForm today f)) k = false)
  /\ timers (resetForm today f) = timers f
  /\ handleSubmit false (formData (resetForm today f))
     = Ok (Alert "Please enter an HCP name.").
Proof.
  split; [|split; [|split; [|split]]].
  - intros k Hk. cbn [resetForm formData list_to_map foldr uncurry fst snd].
    repeat (rewrite lookup_insert_ne;
            [|intros <-; apply Hk; simpl; tauto]).
    apply lookup_empty.
  - intros k Hk. simpl in Hk.
    repeat (destruct Hk as [<-|Hk]; [reflexivity|]). contradiction.
  - intros t k. rewrite highlighted_advance. reflexivity.
  - reflexivity.
  - reflexivity.
Qed.

(** X10. A field update under an alias that the table does not know, a
    canonical name in another letter case included, is stored under the
    alias as given, whether the call returns or raises at its last logging
    line (which it does when the value does not print): no input shows it
    and the create payload never carries it, so that a submission sends what
    it would have sent without the update. *)
Theorem unknown_alias_never_submitted
    (now : nat) (f : string) (value : jsval) (F : form) (b : bool) :
  own fieldMapping (toLowerCase f) = None ->
  inherited (toLowerCase f) = None ->
  ~ In f canonical_fields ->
  exists F',
    handleFormUpdate now (JStr f) value F
      = (if prints value then Ok F' else ThrowAfter TypeError F')
    /\ formData F' !! f = Some value
    /\ handleSubmit b (formData F') = handleSubmit b (formData F)
    /\ input_className F' f = None.
Proof.
  intros Hown Hinh Hnot.
  assert (Hres : resolved f = JStr f).
  { unfold resolved. rewrite (obj_get_own _ _ Hinh), Hown. reflexivity. }
  assert (Htable : has_value_table f = false).
  { unfold has_value_table. rewrite Hres. cbn [is_str].
    destruct (String.eqb_spec f "hcpSentiment") as [->|_];
      [exfalso; apply Hnot; simpl; tauto|].
    destruct (String.eqb_spec f "interactionType") as [->|_];
      [exfalso; apply Hnot; simpl; tauto|reflexivity]. }
  assert (Hn : normalize (JStr f) value = Ok (JStr f, value))
    by (now rewrite normalize_string_field, Htable, Hres).
  rewrite (handleFormUpdate_written _ _ _ _ _ Hn). cbn [fst snd].
  exists (write now (JStr f) value F).
  split; [now destruct (prints value)|].
  cbn [write to_string formData]. split; [apply lookup_insert_eq|]. split.
  - apply handleSubmit_reads_canonical. intros c Hc.
    apply field_insert_other. intros ->. contradiction.
  - unfold input_className.
    repeat match goal with
           | |- context [(f =? ?name)%string] =>
               destruct (String.eqb_spec f name) as [->|_];
               [exfalso; apply Hnot; simpl; tauto|]
           end.
    reflexivity.
Qed.

Lemma unknown_alias_never_submitted_witness :
  exists F',
    handleFormUpdate 0 (JStr "HcpName") (JStr "Dr. Rao")
      (Form.initial "2025-01-15" "10:30") = Ok F'
    /\ formData F' !! "HcpName" = Some (JStr "Dr. Rao")
    /\ handleSubmit false (formData F')
       = Ok (Alert "Please enter an HCP name.").
Proof.
  destruct (unknown_alias_never_submitted 0 "HcpName" (JStr "Dr. Rao")
              (Form.initial "2025-01-15" "10:30") false)
    as (F' & Hupd & Hkey & Hsubmit & _);
    [reflexivity | reflexivity | simpl; intuition discriminate |].
  exists F'. split; [exact Hupd|]. split; [exact Hkey|].
  rewrite Hsubmit. reflexivity.
Defined.

(** The Kelvin sign lowers to k: an alias spelled with it is one the table
    knows. *)
Example kelvin_sign_spells_a_known_alias :
  normalize (JStr (bytes [226; 132; 170] ++ "EY_DISCUSSION_POINTS"))
            (JStr "Dosing")
  = Ok (JStr "topicsDiscussed", JStr "Dosing").
Proof. reflexivity. Qed.

(** X11. The assistant can write a value that is no string under the HCP
    name: the form takes it as it is, whether the call returns or raises at
    its last logging line, and when the value is truthy the next submission
    raises a TypeError at [formData.hcpName.trim()], before its [try]. *)
Theorem non_string_name_breaks_submission
    (now : nat) (value : jsval) (F : form) :
  is_string value = false ->
  truthy value = true ->
  exists F',
    handleFormUpdate now (JStr "hcp_name") value F
      = (if prints value then Ok F' else ThrowAfter TypeError F')
    /\ formData F' !! "hcpName" = Some value
    /\ handleSubmit false (formData F') = Throw TypeError.
Proof.
  intros Hstr Htruthy.
  assert (Hn : normalize (JStr "hcp_name") value = Ok (JStr "hcpName", value))
    by reflexivity.
  rewrite (handleFormUpdate_written _ _ _ _ _ Hn). cbn [fst snd].
  exists (write now (JStr "hcpName") value F).
  split; [now destruct (prints value)|]. cbn [write to_string formData].
  split; [apply lookup_insert_eq|].
  assert (Hname : field (<["hcpName" := value]> (formData F)) "hcpName"
                  = value)
    by (unfold field; now rewrite lookup_insert_eq).
  unfold handleSubmit. rewrite Hname, Htruthy. cbn [negb].
  destruct value; try discriminate Hstr; reflexivity.
Qed.

Lemma non_string_name_breaks_submission_witness :
  exists F',
    handleFormUpdate 0 (JStr "hcp_name") (JNum "42")
      (Form.initial "2025-01-15" "10:30") = Ok F'
    /\ formData F' !! "hcpName" = Some (JNum "42")
    /\ handleSubmit false (formData F') = Throw TypeError.
Proof.
  apply (non_string_name_breaks_submission 0 (JNum "42")); reflexivity.
Defined.

(** The same with a value that does not print: the call raises, and the
    form holds the value all the same. *)
Example unprintable_name_is_written :
  exists F',
    handleFormUpdate 0 (JStr "hcp_name") (JObj [("toString", JNum "1")])
      (Form.initial "2025-01-15" "10:30") = ThrowAfter TypeError F'
    /\ formData F' !! "hcpName" = Some (JObj [("toString", JNum "1")])
    /\ handleSubmit false (formData F') = Throw TypeError.
Proof.
  eexists. split; [reflexivity|]. split; [apply lookup_insert_eq|].
  vm_compute. reflexivity.
Qed.

(** What a dispatch tells of the page. *)
Lemma handleSubmit_begin_dispatched
    (pg pg' : page) (ds : list dialog) (interactionData : list (string * jsval)) :
  handleSubmit_begin pg = Ok (pg', ds, Some interactionData) ->
  submit_disabled pg = false
  /\ (exists name, field (formData (fields pg)) "hcpName" = JStr name
                   /\ trim name <> EmptyString)
  /\ pg' = {| fields := fields pg; isSubmitting := true |}
  /\ ds = [].
Proof.
  unfold handleSubmit_begin, handleSubmit, submit_disabled.
  destruct (isSubmitting pg); [discriminate|].
  destruct (truthy (field (formData (fields pg)) "hcpName")) eqn:Hname;
    cbn [negb bind]; [|discriminate].
  destruct (field (formData (fields pg)) "hcpName") as [| | | |name| | |];
    cbn [call_trim bind]; try discriminate.
  destruct (String.eqb_spec (trim name) EmptyString) as [|Hne];
    cbn [bind]; [discriminate|].
  destruct (truthy (field (formData (fields pg)) "interactionType"));
    cbn [negb bind]; [|discriminate].
  intros [= <- <- <-]. repeat split. now exists name.
Qed.

(** X12. [handleSubmit] dispatches only a form whose submit button is
    enabled: nothing is in flight, the name is a string that is not blank,
    the interaction type is truthy. The flag is set and nothing else of the
    page changes. The converse fails for a blank name: the button is enabled
    for it, and the submission is answered by an alert. *)
Theorem dispatch_only_when_enabled
    (pg pg' : page) (ds : list dialog) (interactionData : list (string * jsval)) :
  handleSubmit_begin pg = Ok (pg', ds, Some interactionData) ->
  submit_disabled pg = false
  /\ (exists name, field (formData (fields pg)) "hcpName" = JStr name
                   /\ trim name <> EmptyString)
  /\ pg' = {| fields := fields pg; isSubmitting := true |}
  /\ ds = [].
Proof. apply handleSubmit_begin_dispatched. Qed.

Lemma dispatch_only_when_enabled_witness :
  exists pg' interactionData,
    handleSubmit_begin {| fields := {| formData := padded_form;
                                       updatedFields := ∅; timers := [] |};
                          isSubmitting := false |}
    = Ok (pg', [], Some interactionData)
    /\ isSubmitting pg' = true.
Proof.
  destruct (handleSubmit_begin
              {| fields := {| formData := padded_form;
                              updatedFields := ∅; timers := [] |};
                 isSubmitting := false |})
    as [[[pg' ds] [payload|]]| |] eqn:E;
    try (vm_compute in E; discriminate E).
  destruct (dispatch_only_when_enabled _ _ _ _ E) as (_ & _ & -> & ->).
  eexists. eexists. split; reflexivity.
Defined.

Example blank_name_enabled_but_refused :
  let pg := {| fields := handleChange "interactionType" "Call"
                           (handleChange "hcpName" "   "
                              (Form.initial "2025-01-15" "10:30"));
               isSubmitting := false |} in
  submit_disabled pg = false
  /\ handleSubmit_begin pg
     = Ok (pg, [alerted "Please enter an HCP name."], None).
Proof. split; reflexivity. Qed.

(** X13. A submission always ends with the flag cleared, and loses nothing
    unless the user asks for it: after a rejected request, or a fulfilled one
    that the user does not follow with another, the form is as it was and
    the same payload can be dispatched again; after a fulfilled one followed
    by another the form is reset. *)
Theorem submission_can_be_retried
    (today : string) (pg pg1 : page) (interactionData : list (string * jsval))
    (r : logged) (addAnother : bool) :
  handleSubmit_begin pg = Ok (pg1, [], Some interactionData) ->
  let pg2 := fst (handleSubmit_settled today r addAnother pg1) in
  isSubmitting pg2 = false
  /\ (match r with
      | logFulfilled _ => addAnother = false
      | logRejected _ => True
      end ->
      fields pg2 = fields pg
      /\ handleSubmit_begin pg2 = Ok (pg1, [], Some interactionData))
  /\ (match r with
      | logFulfilled _ => addAnother = true
      | logRejected _ => False
      end ->
      fields pg2 = resetForm today (fields pg)).
Proof.
  intros Hbegin.
  destruct (handleSubmit_begin_dispatched _ _ _ _ Hbegin)
    as (Hdis & _ & -> & _).
  assert (Hflag : isSubmitting pg = false).
  { unfold submit_disabled in Hdis. now apply orb_false_iff in Hdis. }
  assert (Hsame : {| fields := fields pg; isSubmitting := false |} = pg)
    by (destruct pg; cbn in *; now subst).
  destruct r as [payload|payload]; cbn.
  - split; [reflexivity|]. split.
    + intros ->. split; [reflexivity|]. now rewrite Hsame.
    + intros ->. reflexivity.
  - split; [reflexivity|]. split; [|contradiction].
    intros _. split; [reflexivity|]. now rewrite Hsame.
Qed.

Lemma submission_can_be_retried_witness :
  let pg := {| fields := {| formData := padded_form;
                            updatedFields := ∅; timers := [] |};
               isSubmitting := false |} in
  exists pg1 interactionData,
    handleSubmit_begin pg = Ok (pg1, [], Some interactionData)
    /\ handleSubmit_begin
         (fst (handleSubmit_settled "2025-01-16" (logRejected JUndefined)
                 true pg1))
       = Ok (pg1, [], Some interactionData).
Proof.
  intros pg.
  destruct (handleSubmit_begin pg) as [[[pg1 ds] [payload|]]| |] eqn:E;
    try (vm_compute in E; discriminate E).
  assert (ds = []) as -> by (now destruct (handleSubmit_begin_dispatched _ _ _ _ E)
                               as (_ & _ & _ & ->)).
  exists pg1, payload. split; [reflexivity|].
  now destruct (submission_can_be_retried "2025-01-16" pg pg1 payload
                  (logRejected JUndefined) true E) as (_ & Hretry & _);
    destruct (Hretry I).
Defined.

(** ** What the form shows of an update *)

Lemma update_sentiment_string now v F :
  handleFormUpdate now (JStr "sentiment") (JStr v) F
  = Ok {| formData := <["hcpSentiment" := revalue sentimentMap v]> (formData F);
          updatedFields := <["hcpSentiment" := true]> (updatedFields F);
          timers := timers F ++ [(now + highlight_ms, "hcpSentiment")] |}.
Proof.
  assert (Hn : normalize (JStr "sentiment") (JStr v)
               = Ok (JStr "hcpSentiment", revalue sentimentMap v))
    by reflexivity.
  rewrite (handleFormUpdate_written _ _ _ _ _ Hn). cbn [fst snd].
  rewrite revalue_prints by (simpl; tauto). reflexivity.
Qed.

(** X14. A sentiment written by the assistant shows on the form exactly when
    the value table knows it: then one option, the canonical one, is checked
    and highlighted and the two others are not; a value the table does not
    know is stored and flagged all the same, but no option is checked and
    none is highlighted. *)
Theorem assistant_sentiment_on_screen (now : nat) (v : string) (F : form) :
  exists F',
    handleFormUpdate now (JStr "sentiment") (JStr v) F = Ok F'
    /\ highlighted F' "hcpSentiment" = true
    /\ match own sentimentMap (toLowerCase v) with
       | Some w =>
           exists o, w = JStr o /\ In o sentiment_options
             /\ forall o', In o' sentiment_options ->
                  option_checked F' o' = (o' =? o)%string
                  /\ option_updated F' o' = (o' =? o)%string
       | None =>
           forall o, In o sentiment_options ->
             option_checked F' o = false /\ option_updated F' o = false
       end.
Proof.
  rewrite update_sentiment_string. eexists. split; [reflexivity|].
  assert (Hflag : forall fd flags tm,
    highlighted {| formData := fd;
                   updatedFields := <["hcpSentiment" := true]> flags;
                   timers := tm |} "hcpSentiment" = true).
  { intros. unfold highlighted; cbn [updatedFields].
    now rewrite lookup_insert_eq. }
  split; [apply Hflag|].
  assert (Hshown : forall o,
    option_checked
      {| formData := <["hcpSentiment" := revalue sentimentMap v]> (formData F);
         updatedFields := <["hcpSentiment" := true]> (updatedFields F);
         timers := timers F ++ [(now + highlight_ms, "hcpSentiment")] |} o
    = is_str (revalue sentimentMap v) o).
  { intros o. unfold option_checked, field; cbn [formData].
    now rewrite lookup_insert_eq. }
  unfold option_updated. rewrite Hflag. cbn [andb].
  destruct (own sentimentMap (toLowerCase v)) as [w|] eqn:Hown.
  - assert (Hval : revalue sentimentMap v = w).
    { unfold revalue, obj_get, js_or. rewrite Hown.
      now destruct (table_value_truthy sentimentMap _ _
                      (or_intror (or_introl eq_refl)) Hown) as [-> _]. }
    assert (Hw : In w [JStr "Positive"; JStr "Neutral"; JStr "Negative"])
      by (table_values Hown; simpl; tauto).
    simpl in Hw. destruct Hw as [<-|[<-|[<-|[]]]];
      eexists; (split; [reflexivity|]); (split; [simpl; tauto|]);
      intros o' Ho'; rewrite Hshown, Hval; simpl in Ho';
      destruct Ho' as [<-|[<-|[<-|[]]]]; split; reflexivity.
  - intros o Ho. rewrite Hshown. unfold revalue, obj_get, js_or.
    rewrite Hown.
    destruct (inherited (toLowerCase v)) as [n|]; [split; reflexivity|].
    cbn [truthy is_str].
    assert (Hno : (v =? o)%string = false).
    { destruct (String.eqb_spec v o) as [->|]; [|reflexivity].
      simpl in Ho. destruct Ho as [<-|[<-|[<-|[]]]]; discriminate Hown. }
    now rewrite Hno.
Qed.

Example unknown_sentiment_not_on_screen :
  match handleFormUpdate 0 (JStr "sentiment") (JStr "enthusiastic")
          (Form.initial "2025-01-15" "10:30") with
  | Ok F' =>
      formData F' !! "hcpSentiment" = Some (JStr "enthusiastic")
      /\ map (option_checked F') sentiment_options = [false; false; false]
  | _ => False
  end.
Proof. vm_compute. split; reflexivity. Qed.

(** X15. Five inputs never show an update. When the assistant writes the
    date, the time, the attendees, the outcomes or the follow-up actions,
    under any alias, the flag of the field is set and its timer started, but
    the class of its input is the same as before, without the class
    updated. *)
Theorem update_of_five_fields_is_not_shown
    (now : nat) (alias : string) (value : jsval) (F F' : form) (name : string) :
  In name ["date"; "time"; "attendees"; "outcomes"; "followUpActions"] ->
  resolved alias = JStr name ->
  handleFormUpdate now (JStr alias) value F = Ok F' ->
  formData F' !! name = Some value
  /\ highlighted F' name = true
  /\ input_className F' name = input_className F name
  /\ In (input_className F' name) [Some "form-input"; Some "form-textarea"].
Proof.
  intros Hname Hres Hupd.
  destruct (handleFormUpdate_frame now (JStr alias) value F F' Hupd)
    as (k & w & Hnorm & Hval & _ & Htimers).
  rewrite normalize_string_field in Hnorm.
  assert (Htable : has_value_table alias = false).
  { unfold has_value_table. rewrite Hres. simpl in Hname.
    destruct Hname as [<-|[<-|[<-|[<-|[<-|[]]]]]]; reflexivity. }
  rewrite Htable, Hres in Hnorm. injection Hnorm as <- <-.
  cbn [to_string] in Hval. split; [exact Hval|].
  split.
  - assert (Hn : normalize (JStr alias) value = Ok (JStr name, value))
      by (now rewrite normalize_string_field, Htable, Hres).
    rewrite (handleFormUpdate_written _ _ _ _ _ Hn) in Hupd.
    cbn [fst snd] in Hupd.
    destruct (prints value); [|discriminate Hupd]. injection Hupd as <-.
    unfold highlighted, write; cbn [updatedFields to_string].
    now rewrite lookup_insert_eq.
  - simpl in Hname.
    destruct Hname as [<-|[<-|[<-|[<-|[<-|[]]]]]];
      (split; [reflexivity | simpl; tauto]).
Qed.

Lemma update_of_five_fields_is_not_shown_witness :
  exists F',
    handleFormUpdate 0 (JStr "when") (JStr "2025-02-01")
      (Form.initial "2025-01-15" "10:30") = Ok F'
    /\ highlighted F' "date" = true
    /\ input_className F' "date" = Some "form-input".
Proof.
  destruct (handleFormUpdate 0 (JStr "when") (JStr "2025-02-01")
              (Form.initial "2025-01-15" "10:30")) as [F'| |] eqn:E;
    try discriminate E.
  destruct (update_of_five_fields_is_not_shown 0 "when" (JStr "2025-02-01")
              (Form.initial "2025-01-15" "10:30") F' "date")
    as (_ & Hflag & Hclass & _);
    [simpl; tauto | reflexivity | exact E |].
  exists F'. split; [reflexivity|]. split; [exact Hflag|].
  rewrite Hclass. reflexivity.
Defined.

(** ** The effect, whatever the response *)

Lemma js_or_truthy a b : truthy b = true -> truthy (js_or a b) = true.
Proof. intros H. unfold js_or. now destruct (truthy a) eqn:E. Qed.

Section EffectShape.

Variable JSON_parse : string -> option jsval.
Context {Parent : Type}.
Variable onFormUpdate : option (jsval -> jsval -> Parent -> result Parent).

Lemma update_text_truthy (message field value text : jsval) :
  update_text message field value = Ok text -> truthy text = true.
Proof.
  unfold update_text, call_to_string.
  destruct (truthy message) eqn:E; [now intros [= <-]|].
  destruct (prints field); [|discriminate].
  destruct (prints value); [|discriminate].
  cbn [bind]. now intros [= <-].
Qed.

Lemma apply_envelope_message now parsed (p p' : Parent) m :
  apply_envelope JSON_parse onFormUpdate now parsed p = Ok (m, p') ->
  type m = assistant /\ timestamp m = now /\ isInitial m = false
  /\ (truthy (content m) = true \/ parsed = JStr EmptyString).
Proof.
  unfold apply_envelope.
  destruct (get parsed "response_type") as [rt| |] eqn:Hrt; [|discriminate..].
  rewrite (get_after_get _ _ _ "message" Hrt). cbn [bind].
  destruct (is_str rt "FORM_POPULATE").
  { rewrite (get_after_get _ _ _ "field_updates" Hrt). cbn [bind].
    match goal with
    | |- bind ?e _ = _ -> _ => destruct e as [q| |]; [|discriminate..]
    end.
    cbn [bind]. intros [= <- <-]. cbn. repeat split.
    left. now apply js_or_truthy. }
  destruct (is_str rt "FORM_UPDATE").
  { rewrite (get_after_get _ _ _ "field" Hrt),
            (get_after_get _ _ _ "value" Hrt). cbn [bind].
    match goal with
    | |- bind ?e _ = _ -> _ => destruct e as [q| |]; [|discriminate..]
    end.
    cbn [bind].
    destruct (update_text _ _ _) as [text| |] eqn:Htext; [|discriminate..].
    cbn [bind]. intros [= <- <-]. cbn. repeat split.
    left. exact (update_text_truthy _ _ _ _ Htext). }
  destruct (is_str rt "ERROR").
  { intros [= <- <-]. cbn. repeat split. left. now apply js_or_truthy. }
  intros [= <- <-]. cbn. repeat split.
  destruct parsed as [| | | |s| | |]; cbn [is_string];
    try (left; now apply js_or_truthy).
  cbn [prop get js_or truthy].
  destruct s; [right; reflexivity | left; reflexivity].
Qed.

(** X16. Whatever a response holds, when the effect processes it without
    raising it appends exactly one message, an assistant message stamped with
    the instant, after the messages that were there; it releases the gate,
    remembers the response and leaves the typed text alone. The text of the
    message is not empty, unless the response is the JSON text of the empty
    string. *)
Theorem processed_response_appends_one_message
    (now : nat) (r : response) (c c' : chat) (p p' : Parent) :
  truthy (payload r) = true ->
  differs_from_last r c = true ->
  effect JSON_parse onFormUpdate now (Some r) c p = Ok (c', p') ->
  exists m,
    c' = processed r m c
    /\ type m = assistant /\ timestamp m = now /\ isInitial m = false
    /\ (truthy (content m) = true
        \/ parse_payload JSON_parse (payload r) = JStr EmptyString).
Proof.
  intros Htruthy Hnew. unfold effect. rewrite Htruthy, Hnew. cbn [andb].
  destruct (apply_envelope _ _ _ _ _) as [[m q]| |] eqn:E; [|discriminate..].
  cbn [bind fst snd]. intros [= <- <-]. exists m.
  split; [reflexivity|]. exact (apply_envelope_message _ _ _ _ _ E).
Qed.

(** X17. Running the effect again on the same response, as React does when
    another dependency changes, changes nothing: whatever the first run did,
    a second run on its result returns it as it is. *)
Theorem effect_runs_once
    (now later : nat)
    (again : option (jsval -> jsval -> Parent -> result Parent))
    (r : option response) (c c' : chat) (p p' : Parent) :
  effect JSON_parse onFormUpdate now r c p = Ok (c', p') ->
  effect JSON_parse again later r c' p' = Ok (c', p').
Proof.
  destruct r as [r|]; [|now intros [= <- <-]].
  unfold effect at 1.
  destruct (truthy (payload r) && differs_from_last r c) eqn:Hguard.
  - destruct (apply_envelope _ _ _ _ _) as [[m q]| |]; [|discriminate..].
    cbn [bind fst snd]. intros [= <- <-].
    apply (duplicate_response_discarded _ _ _ r r); [reflexivity|].
    apply strict_eq_refl.
  - intros [= <- <-]. unfold effect. now rewrite Hguard.
Qed.

End EffectShape.

Lemma processed_response_appends_one_message_witness :
  exists m,
    effect rejects_all (Some (handleFormUpdate 5)) 5
      (Some {| ref := 1; payload := JNum "7" |})
      (Chat.initial 0) (Form.initial "2025-01-15" "10:30")
    = Ok (processed {| ref := 1; payload := JNum "7" |} m (Chat.initial 0),
          Form.initial "2025-01-15" "10:30")
    /\ content m = JStr "Response received".
Proof.
  destruct (processed_response_appends_one_message rejects_all
              (Some (handleFormUpdate 5)) 5 {| ref := 1; payload := JNum "7" |}
              (Chat.initial 0) _ (Form.initial "2025-01-15" "10:30") _
              eq_refl eq_refl eq_refl) as (m & Hc & _).
  exists m. split; [now rewrite <- Hc|].
  injection Hc as Hm. now rewrite <- Hm.
Defined.

Lemma effect_runs_once_witness :
  match effect rejects_all (Some (handleFormUpdate 5)) 5
          (Some {| ref := 1; payload := populate_sentiment |})
          (Chat.initial 0) (Form.initial "2025-01-15" "10:30") with
  | Ok (c', f') =>
      effect rejects_all (Some (handleFormUpdate 9)) 9
        (Some {| ref := 1; payload := populate_sentiment |}) c' f'
      = Ok (c', f')
  | _ => False
  end.
Proof.
  destruct (effect rejects_all (Some (handleFormUpdate 5)) 5
              (Some {| ref := 1; payload := populate_sentiment |})
              (Chat.initial 0) (Form.initial "2025-01-15" "10:30"))
    as [[c' f']| |] eqn:E; [|discriminate E..].
  assert (E' := E). vm_compute in E'. injection E' as <- <-.
  exact (effect_runs_once rejects_all (Some (handleFormUpdate 5)) 5 9
           (Some (handleFormUpdate 9)) _ _ _ _ _ E).
Defined.

(** ** Responses that crash, lock or bypass the form *)

Section EffectEdges.

Variable JSON_parse : string -> option jsval.
Context {Parent : Type}.
Variable onFormUpdate : option (jsval -> jsval -> Parent -> result Parent).

Lemma effect_skips now (r : response) (c : chat) (p : Parent) :
  truthy (payload r) = false
  \/ (exists l, lastProcessedResponse c = Some l /\ strict_eq r l = true) ->
  effect JSON_parse onFormUpdate now (Some r) c p = Ok (c, p).
Proof.
  intros [Hfalsy|(l & Hlast & Hsame)].
  - unfold effect. now rewrite Hfalsy.
  - now apply (duplicate_response_discarded _ _ _ r l).
Qed.

(** X19. A text response that parses to [null] makes the effect raise a
    TypeError at the first property it reads: no message is appended and the
    gate is not released. *)
Theorem text_parsing_to_null_raises
    (now id : nat) (s : string) (c : chat) (p : Parent) :
  JSON_parse s = Some JNull ->
  s <> EmptyString ->
  differs_from_last {| ref := id; payload := JStr s |} c = true ->
  effect JSON_parse onFormUpdate now (Some {| ref := id; payload := JStr s |})
    c p = Throw TypeError.
Proof.
  intros Hparse Hne Hnew. unfold effect. cbn [payload].
  rewrite (truthy_string s Hne), Hnew. cbn [andb].
  unfold parse_payload. rewrite Hparse. reflexivity.
Qed.

(** X23. A FORM_POPULATE envelope without a list of field updates never makes
    the effect raise, whatever its message holds and whatever [onFormUpdate]
    does: the message is tried as JSON text inside a [try], and the one
    confirmation message is appended in every case. *)
Theorem populate_without_list_never_raises
    (now : nat) (r : response) (c : chat) (p : Parent)
    (props : list (string * jsval)) :
  truthy (payload r) = true ->
  differs_from_last r c = true ->
  parse_payload JSON_parse (payload r) = JObj props ->
  obj_get props "response_type" = JStr "FORM_POPULATE" ->
  truthy (obj_get props "field_updates") = false ->
  exists m,
    effect JSON_parse onFormUpdate now (Some r) c p
    = Ok (processed r m c,
          if truthy (obj_get props "message")
          then populate_from_message JSON_parse onFormUpdate
                 (obj_get props "message") p
          else p)
    /\ isFormUpdate m = true
    /\ responseType m = Some "FORM_POPULATE".
Proof.
  intros Htruthy Hnew Hparsed Hkind Hnone.
  unfold effect. rewrite Htruthy, Hnew, Hparsed. cbn [andb].
  unfold apply_envelope. cbn [get bind]. rewrite Hkind, Hnone.
  change (is_str (JStr "FORM_POPULATE") "FORM_POPULATE") with true.
  cbn iota.
  destruct onFormUpdate as [h|];
    destruct (truthy (obj_get props "message"));
    cbn [bind fst snd]; eexists; (split; [reflexivity|]); split; reflexivity.
Qed.

(** X24. The response type is matched as spelled: an envelope whose type is
    none of FORM_POPULATE, FORM_UPDATE and ERROR, a known type in another
    letter case included, is shown as a plain message with its text, or with
    the words Response received when it has none, and the form is not
    written. *)
Theorem unknown_kind_is_plain
    (now : nat) (r : response) (c : chat) (p : Parent)
    (props : list (string * jsval)) :
  truthy (payload r) = true ->
  differs_from_last r c = true ->
  parse_payload JSON_parse (payload r) = JObj props ->
  Forall (fun kind => is_str (obj_get props "response_type") kind = false)
         known_kinds ->
  effect JSON_parse onFormUpdate now (Some r) c p
  = Ok (processed r
          (plain now (js_or (obj_get props "message")
                            (JStr "Response received"))) c, p).
Proof.
  intros Htruthy Hnew Hparsed Hkinds.
  inversion Hkinds as [|? ? H1 Hk1]; subst.
  inversion Hk1 as [|? ? H2 Hk2]; subst.
  inversion Hk2 as [|? ? H3 _]; subst.
  unfold effect. rewrite Htruthy, Hnew, Hparsed. cbn [andb].
  unfold apply_envelope. cbn [get bind]. rewrite H1, H2, H3.
  reflexivity.
Qed.

End EffectEdges.

Lemma text_parsing_to_null_raises_witness :
  parses_null "null" = Some JNull
  /\ effect parses_null (Some (handleFormUpdate 5)) 5
       (Some {| ref := 1; payload := JStr "null" |})
       (Chat.initial 0) (Form.initial "2025-01-15" "10:30")
     = Throw TypeError.
Proof.
  split; [reflexivity|].
  apply (text_parsing_to_null_raises parses_null (Some (handleFormUpdate 5))
           5 1 "null"); [reflexivity | discriminate | reflexivity].
Defined.

Lemma populate_without_list_never_raises_witness :
  exists m,
    effect rejects_all (Some (handleFormUpdate 5)) 5
      (Some {| ref := 1;
               payload := JObj [ ("response_type", JStr "FORM_POPULATE");
                                 ("message", JStr "Logged.") ] |})
      (Chat.initial 0) (Form.initial "2025-01-15" "10:30")
    = Ok (processed
            {| ref := 1;
               payload := JObj [ ("response_type", JStr "FORM_POPULATE");
                                 ("message", JStr "Logged.") ] |}
            m (Chat.initial 0),
          Form.initial "2025-01-15" "10:30")
    /\ isFormUpdate m = true.
Proof.
  destruct (populate_without_list_never_raises rejects_all
              (Some (handleFormUpdate 5)) 5
              {| ref := 1;
                 payload := JObj [ ("response_type", JStr "FORM_POPULATE");
                                   ("message", JStr "Logged.") ] |}
              (Chat.initial 0) (Form.initial "2025-01-15" "10:30") _
              eq_refl eq_refl eq_refl eq_refl eq_refl)
    as (m & Heff & Hflag & _).
  exists m. split; [exact Heff | exact Hflag].
Defined.

Lemma unknown_kind_is_plain_witness :
  effect rejects_all (Some (handleFormUpdate 5)) 5
    (Some {| ref := 1;
             payload := JObj [ ("response_type", JStr "error");
                               ("message", JStr "No such record") ] |})
    (Chat.initial 0) (Form.initial "2025-01-15" "10:30")
  = Ok (processed
          {| ref := 1;
             payload := JObj [ ("response_type", JStr "error");
                               ("message", JStr "No such record") ] |}
          (plain 5 (JStr "No such record")) (Chat.initial 0),
        Form.initial "2025-01-15" "10:30").
Proof.
  apply (unknown_kind_is_plain rejects_all (Some (handleFormUpdate 5)) 5
           {| ref := 1;
              payload := JObj [ ("response_type", JStr "error");
                                ("message", JStr "No such record") ] |}
           (Chat.initial 0) (Form.initial "2025-01-15" "10:30")
           [ ("response_type", JStr "error");
             ("message", JStr "No such record") ]);
    try reflexivity.
  repeat constructor.
Defined.

(** X18. A response that the effect does not process leaves the chat locked.
    When the request in flight is answered by a falsy body (an empty text,
    0, false) or by a text equal to the response processed last, nothing is
    appended, the gate stays closed, and whatever is typed next every
    submission returns at the gate. *)
Theorem unprocessed_response_locks_chat
    (JSON_parse : string -> option jsval)
    (now later token : nat) (r : response) (s s1 : session) :
  handleSendMessage_begin now (ui s) <> None ->
  step JSON_parse now Submitted s = Ok s1 ->
  truthy (payload r) = false
  \/ (exists l, lastProcessedResponse (ui s) = Some l /\ strict_eq r l = true) ->
  exists s2,
    step JSON_parse later (Settled token (HttpOk r)) s1 = Ok s2
    /\ isLoading (ui s2) = true
    /\ messages (ui s2) = messages (ui s1)
    /\ forall at_ text, handleSendMessage_begin at_
          {| messages := messages (ui s2); inputMessage := text;
             isLoading := isLoading (ui s2);
             lastProcessedResponse := lastProcessedResponse (ui s2) |} = None.
Proof.
  intros Hopen Hstep Hskip. unfold step in Hstep.
  destruct (handleSendMessage_begin now (ui s)) as [c|] eqn:Hbegin;
    [|contradiction].
  injection Hstep as <-.
  assert (Hc : isLoading c = true
               /\ lastProcessedResponse c = lastProcessedResponse (ui s)).
  { unfold handleSendMessage_begin in Hbegin.
    destruct (_ || _); [discriminate|]. now injection Hbegin as <-. }
  destruct Hc as [Hloading Hlast].
  assert (Hlocked : forall c2, isLoading c2 = true ->
            forall at_ text, handleSendMessage_begin at_
              {| messages := messages c2; inputMessage := text;
                 isLoading := isLoading c2;
                 lastProcessedResponse := lastProcessedResponse c2 |} = None).
  { intros c2 H2 at_ text. unfold handleSendMessage_begin. cbn [isLoading].
    rewrite H2. now rewrite orb_true_r. }
  unfold step. cbn [redux ui hcp issued chatWithAgentAsync reducer
                    Chat.chatResponse handleSendMessage_resume].
  destruct (deps_changed _ _).
  - unfold render_effect. cbn [redux ui hcp issued Chat.chatResponse].
    rewrite effect_skips.
    + cbn [bind fst snd]. eexists. split; [reflexivity|]. cbn [ui].
      split; [exact Hloading|]. split; [reflexivity|].
      apply Hlocked. exact Hloading.
    + cbn [lastProcessedResponse]. rewrite Hlast. exact Hskip.
  - eexists. split; [reflexivity|]. cbn [ui].
    split; [exact Hloading|]. split; [reflexivity|].
    apply Hlocked. exact Hloading.
Qed.

Lemma unprocessed_response_locks_chat_witness :
  exists s0 s1 s2,
    run rejects_all [(0, Typed "hello")] (start 0 "2025-01-15" "10:30") = Ok s0
    /\ step rejects_all 1 Submitted s0 = Ok s1
    /\ step rejects_all 9
         (Settled 1 (HttpOk {| ref := 1; payload := JNum "0" |})) s1 = Ok s2
    /\ isLoading (ui s2) = true.
Proof.
  destruct (run rejects_all [(0, Typed "hello")] (start 0 "2025-01-15" "10:30"))
    as [s0| |] eqn:E0; [|discriminate E0..].
  assert (Hopen : handleSendMessage_begin 1 (ui s0) <> None).
  { cbn in E0. injection E0 as <-. discriminate. }
  destruct (step rejects_all 1 Submitted s0) as [s1| |] eqn:E1.
  - destruct (unprocessed_response_locks_chat rejects_all 1 9 1
                {| ref := 1; payload := JNum "0" |} s0 s1
                Hopen E1 (or_introl eq_refl))
      as (s2 & Hstep & Hlock & _).
    exists s0, s1, s2. repeat split; assumption.
  - cbn in E0. injection E0 as <-. discriminate E1.
  - cbn in E0. injection E0 as <-. discriminate E1.
Defined.

(** ** The two ways of applying field updates *)

Section Loops.

Variable now : nat.

Lemma until_raise_all_succeed (pre : list jsval) : forall (F : form),
  Forall entry pre ->
  Forall (completes) pre ->
  forall rest,
    forEach_until_raise (handleFormUpdate now) (pre ++ rest) F
    = forEach_until_raise (handleFormUpdate now) rest
        (foldl (write_form now) F pre).
Proof.
  induction pre as [|x pre IH]; intros F Hentries Hok rest; [reflexivity|].
  inversion Hentries as [|? ? Hx Hpre]; subst.
  inversion Hok as [|? ? Hhead Hok']; subst.
  destruct Hhead as (q & Hq & Hprints).
  cbn [app forEach_until_raise foldl].
  rewrite (get_entry x "field" Hx), (get_entry x "value" Hx). cbn [bind].
  rewrite write_form_eq, (handleFormUpdate_written _ _ _ _ _ Hq), Hq, Hprints.
  now apply IH.
Qed.

(** X22. The two loops over field updates differ on a failing element. The
    loop over the list of the envelope skips it and goes on; the loop over
    the list carried as JSON text in the message stops at it: the elements
    before it are written, the ones after it are not, and in both cases
    nothing raises. Here the elements before it are ones on which
    [handleFormUpdate] returns, and the failing one is one on which it
    raises before it writes. *)
Theorem text_updates_stop_at_first_failure
    (JSON_parse : string -> option jsval)
    (text : jsval) (aprops : list (string * jsval))
    (pre post : list jsval) (u : jsval) (F : form) :
  prints text = true ->
  JSON_parse (to_string text) = Some (JObj aprops) ->
  obj_get aprops "field_updates" = JArr (pre ++ u :: post) ->
  Forall entry (pre ++ u :: post) ->
  Forall completes pre ->
  normalize (prop u "field") (prop u "value") = Throw TypeError ->
  populate_from_message JSON_parse (Some (handleFormUpdate now)) text F
    = foldl (write_form now) F pre
  /\ forEach_guarded (handleFormUpdate now) (pre ++ u :: post) F
    = Ok (foldl (write_form now) F (pre ++ post)).
Proof.
  intros Hprints Hparse Hlist Hentries Hok Hfail.
  apply Forall_app in Hentries. destruct Hentries as [Hpre Hrest].
  inversion Hrest as [|? ? Hu Hpost]; subst.
  split.
  - unfold populate_from_message, call_to_string.
    rewrite Hprints, Hparse. cbn [get]. rewrite Hlist.
    cbn [truthy].
    rewrite (until_raise_all_succeed pre F Hpre Hok).
    cbn [forEach_until_raise].
    rewrite (get_entry u "field" Hu), (get_entry u "value" Hu). cbn [bind].
    now rewrite (handleFormUpdate_raises _ _ _ _ Hfail).
  - rewrite forEach_guarded_entries
      by (apply Forall_app; split; [exact Hpre | now constructor]).
    f_equal. change (write_or_skip (handleFormUpdate now)) with (write_form now).
    rewrite !foldl_app. cbn [foldl]. f_equal.
    rewrite write_form_eq. now rewrite Hfail.
Qed.

(** An element on which [handleFormUpdate] raises at its last logging line
    stops the loop over the text as well, after it has been written. *)
Lemma text_updates_stop_after_unprintable
    (JSON_parse : string -> option jsval)
    (text : jsval) (aprops : list (string * jsval))
    (pre post : list jsval) (u : jsval) (q : jsval * jsval) (F : form) :
  prints text = true ->
  JSON_parse (to_string text) = Some (JObj aprops) ->
  obj_get aprops "field_updates" = JArr (pre ++ u :: post) ->
  Forall entry (pre ++ u :: post) ->
  Forall completes pre ->
  normalize (prop u "field") (prop u "value") = Ok q ->
  prints (snd q) = false ->
  populate_from_message JSON_parse (Some (handleFormUpdate now)) text F
    = foldl (write_form now) F (pre ++ [u]).
Proof.
  intros Hprints Hparse Hlist Hentries Hok Hq Hfail.
  apply Forall_app in Hentries. destruct Hentries as [Hpre Hrest].
  inversion Hrest as [|? ? Hu Hpost]; subst.
  unfold populate_from_message, call_to_string.
  rewrite Hprints, Hparse. cbn [get]. rewrite Hlist.
  cbn [truthy].
  rewrite (until_raise_all_succeed pre F Hpre Hok).
  cbn [forEach_until_raise].
  rewrite (get_entry u "field" Hu), (get_entry u "value" Hu). cbn [bind].
  rewrite (handleFormUpdate_written _ _ _ _ _ Hq), Hfail.
  rewrite foldl_app. cbn [foldl]. now rewrite write_form_eq, Hq.
Qed.

End Loops.

Lemma text_updates_stop_at_first_failure_witness :
  let F := Form.initial "2025-01-15" "10:30" in
  let F' := populate_from_message parses_three_updates
              (Some (handleFormUpdate 5)) (JStr three_updates_text) F in
  formData F' !! "date" = Some (JStr "2025-02-01")
  /\ formData F' !! "interactionType" = Some (JStr EmptyString)
  /\ match forEach_guarded (handleFormUpdate 5) three_updates F with
     | Ok G => formData G !! "interactionType" = Some (JStr "Call")
     | _ => False
     end.
Proof.
  intros F F'.
  destruct (text_updates_stop_at_first_failure 5 parses_three_updates
              (JStr three_updates_text)
              [("field_updates", JArr three_updates)]
              [JObj [("field", JStr "date"); ("value", JStr "2025-02-01")]]
              [JObj [("field", JStr "type"); ("value", JStr "call")]]
              (JObj [("field", JStr "sentiment"); ("value", JNum "5")]) F)
    as [Htext Hlist].
  - reflexivity.
  - reflexivity.
  - reflexivity.
  - repeat constructor; discriminate.
  - repeat constructor. eexists. split; reflexivity.
  - reflexivity.
  - subst F'. rewrite Htext.
    change (forEach_guarded (handleFormUpdate 5) three_updates F)
      with (forEach_guarded (handleFormUpdate 5)
              ([JObj [("field", JStr "date"); ("value", JStr "2025-02-01")]]
               ++ JObj [("field", JStr "sentiment"); ("value", JNum "5")]
               :: [JObj [("field", JStr "type"); ("value", JStr "call")]]) F).
    rewrite Hlist. repeat split; reflexivity.
Defined.

(** ** The FORM_UPDATE branch *)

(** X20. The FORM_UPDATE branch does not isolate a failing update. A value
    that is no string, sent for the sentiment or the interaction type, makes
    the effect raise when it comes as a FORM_UPDATE envelope: no message is
    appended and the gate stays closed. The same pair sent as the one element
    of a FORM_POPULATE envelope is skipped: the form is left as it was, the
    confirmation is appended and the gate released. *)
Theorem form_update_failure_is_not_isolated
    (JSON_parse : string -> option jsval)
    (now id : nat) (f : string) (value : jsval) (c : chat) (F : form) :
  has_value_table f = true ->
  is_string value = false ->
  value <> JUndefined ->
  differs_from_last {| ref := id; payload := update_envelope f value |} c
    = true ->
  effect JSON_parse (Some (handleFormUpdate now)) now
    (Some {| ref := id; payload := update_envelope f value |}) c F
    = Throw TypeError
  /\ (differs_from_last {| ref := id; payload := populate_envelope f value |} c
        = true ->
      exists m,
        effect JSON_parse (Some (handleFormUpdate now)) now
          (Some {| ref := id; payload := populate_envelope f value |}) c F
        = Ok (processed {| ref := id; payload := populate_envelope f value |}
                m c, F)).
Proof.
  intros Htable Hstr Hdef Hnew.
  assert (Hf : truthy (JStr f) = true)
    by (destruct f; [discriminate Htable | reflexivity]).
  assert (Hraise : handleFormUpdate now (JStr f) value F = Throw TypeError).
  { apply handleFormUpdate_raises. rewrite normalize_string_field, Htable.
    destruct value; try discriminate Hstr; reflexivity. }
  split.
  - unfold effect. cbn [payload update_envelope truthy andb]. rewrite Hnew.
    unfold apply_envelope, parse_payload, update_envelope.
    cbn -[handleFormUpdate truthy].
    destruct value; try contradiction; try discriminate Hstr;
      rewrite Hf, Hraise; reflexivity.
  - intros Hnew'. unfold effect.
    cbn [payload populate_envelope truthy andb]. rewrite Hnew'.
    unfold apply_envelope, parse_payload, populate_envelope.
    cbn -[handleFormUpdate].
    rewrite Hraise. cbn [bind fst snd]. eexists. reflexivity.
Qed.

Lemma form_update_failure_is_not_isolated_witness :
  effect rejects_all (Some (handleFormUpdate 5)) 5
    (Some {| ref := 1; payload := update_envelope "mood" (JNum "3") |})
    (Chat.initial 0) (Form.initial "2025-01-15" "10:30")
  = Throw TypeError.
Proof.
  apply (form_update_failure_is_not_isolated rejects_all 5 1 "mood" (JNum "3")
           (Chat.initial 0) (Form.initial "2025-01-15" "10:30"));
    [reflexivity | reflexivity | discriminate | reflexivity].
Defined.

(** X21. A FORM_UPDATE envelope without a field, or without a value, writes
    nothing, whatever [onFormUpdate] would do, and is announced all the same:
    the message appended is marked as a form update and holds the text of
    the envelope, or, when the envelope has none, the word Updated, the
    field and the value as printed. This is so whenever the envelope has a
    text or its field and value print. *)
Theorem form_update_without_field_is_announced
    (JSON_parse : string -> option jsval) {Parent : Type}
    (onFormUpdate : option (jsval -> jsval -> Parent -> result Parent))
    (now : nat) (r : response) (c : chat) (p : Parent)
    (props : list (string * jsval)) :
  truthy (payload r) = true ->
  differs_from_last r c = true ->
  parse_payload JSON_parse (payload r) = JObj props ->
  obj_get props "response_type" = JStr "FORM_UPDATE" ->
  truthy (obj_get props "field") = false
  \/ obj_get props "value" = JUndefined ->
  truthy (obj_get props "message") = true
  \/ (prints (obj_get props "field") = true
      /\ prints (obj_get props "value") = true) ->
  effect JSON_parse onFormUpdate now (Some r) c p
  = Ok (processed r
          (update_message now (obj_get props "message")
             (obj_get props "field") (obj_get props "value")) c, p).
Proof.
  intros Htruthy Hnew Hparsed Hkind Hmissing Htext.
  unfold effect. rewrite Htruthy, Hnew, Hparsed. cbn [andb].
  unfold apply_envelope. cbn [get bind]. rewrite Hkind.
  change (is_str (JStr "FORM_UPDATE") "FORM_POPULATE") with false.
  change (is_str (JStr "FORM_UPDATE") "FORM_UPDATE") with true.
  cbn iota.
  assert (Hskip :
    match onFormUpdate, obj_get props "value" with
    | None, _ | _, JUndefined => Ok p
    | Some h, _ =>
        if truthy (obj_get props "field")
        then h (obj_get props "field") (obj_get props "value") p else Ok p
    end = Ok p).
  { destruct onFormUpdate as [h|]; [|now destruct (obj_get props "value")].
    destruct Hmissing as [Hfield|Hvalue].
    - rewrite Hfield. now destruct (obj_get props "value").
    - now rewrite Hvalue. }
  rewrite Hskip. cbn [bind]. unfold update_text, update_message, js_or,
    call_to_string.
  destruct (truthy (obj_get props "message")); [reflexivity|].
  destruct Htext as [Hno|[-> ->]]; [discriminate Hno | reflexivity].
Qed.

Lemma form_update_without_field_is_announced_witness :
  exists c',
    effect rejects_all (Some (handleFormUpdate 5)) 5
      (Some {| ref := 1;
               payload := JObj [("response_type", JStr "FORM_UPDATE")] |})
      (Chat.initial 0) (Form.initial "2025-01-15" "10:30")
    = Ok (c', Form.initial "2025-01-15" "10:30")
    /\ map content (messages c')
       = [ JStr greeting;
           JStr ("Updated undefined to " ++ quoted "undefined") ]
    /\ map isFormUpdate (messages c') = [false; true].
Proof.
  eexists. split.
  - apply (form_update_without_field_is_announced rejects_all
             (Some (handleFormUpdate 5)) 5
             {| ref := 1;
                payload := JObj [("response_type", JStr "FORM_UPDATE")] |}
             (Chat.initial 0) (Form.initial "2025-01-15" "10:30")
             [("response_type", JStr "FORM_UPDATE")]);
      try reflexivity; [now left | right; split; reflexivity].
  - split; reflexivity.
Defined.

(** A value that does not print, with no text in the envelope and no field:
    nothing is written, and the default text cannot be built. *)
Example form_update_default_text_raises :
  effect rejects_all (Some (handleFormUpdate 5)) 5
    (Some {| ref := 1;
             payload := JObj [ ("response_type", JStr "FORM_UPDATE");
                               ("value", JObj [("toString", JNum "1")]) ] |})
    (Chat.initial 0) (Form.initial "2025-01-15" "10:30")
  = Throw TypeError.
Proof. reflexivity. Qed.

(** ** Rendering a message *)

Lemma split_lines_nonempty s : split_lines s <> [].
Proof.
  destruct s as [|c r]; cbn; [discriminate|].
  destruct (Ascii.eqb c newline); [discriminate|].
  destruct (split_lines r); discriminate.
Qed.

Lemma join_split_lines s :
  String.concat (String newline EmptyString) (split_lines s) = s.
Proof.
  induction s as [|c r IH]; [reflexivity|]. cbn [split_lines].
  destruct (Ascii.eqb_spec c newline) as [->|Hc].
  - destruct (split_lines r) as [|line lines] eqn:E;
      [now destruct (split_lines_nonempty r)|].
    cbn [String.concat]. cbn [String.concat] in IH.
    destruct lines; cbn; now rewrite <- IH.
  - destruct (split_lines r) as [|line lines] eqn:E;
      [now destruct (split_lines_nonempty r)|].
    cbn [String.concat] in *. destruct lines; cbn; now rewrite <- IH.
Qed.

Lemma length_split_lines s : length (split_lines s) = S (count_newlines s).
Proof.
  induction s as [|c r IH]; [reflexivity|]. cbn [split_lines count_newlines].
  destruct (Ascii.eqb c newline); cbn [length]; [now rewrite IH|].
  destruct (split_lines r) as [|line lines] eqn:E;
    [now destruct (split_lines_nonempty r)|].
  cbn [length] in *. lia.
Qed.

Lemma with_breaks_lines lines :
  lines <> [] ->
  map fst (with_breaks lines) = lines
  /\ map snd (with_breaks lines)
     = (repeat true (length lines - 1) ++ [false])%list.
Proof.
  induction lines as [|line rest IH]; [congruence|]. intros _.
  destruct rest as [|line' rest']; [split; reflexivity|].
  destruct IH as [IH1 IH2]; [discriminate|].
  change (with_breaks (line :: line' :: rest'))
    with ((line, true) :: with_breaks (line' :: rest')).
  cbn [map fst snd]. rewrite IH1, IH2. split; [reflexivity|].
  cbn [length]. replace (S (S (length rest')) - 1) with (S (length rest')) by lia.
  replace (S (length rest') - 1) with (length rest') by lia. reflexivity.
Qed.

(** X25. [formatMessage] loses nothing of a text: it gives one block for
    each line, one more than the text has line breaks; the blocks joined by
    line breaks are the text again; and a break follows every block but the
    last. *)
Theorem formatMessage_keeps_the_text (s : string) :
  exists blocks,
    formatMessage (JStr s) = Ok blocks
    /\ String.concat (String newline EmptyString) (map fst blocks) = s
    /\ length blocks = S (count_newlines s)
    /\ map snd blocks = (repeat true (count_newlines s) ++ [false])%list.
Proof.
  eexists. split; [reflexivity|].
  destruct (with_breaks_lines (split_lines s) (split_lines_nonempty s))
    as [Hfst Hsnd].
  split; [rewrite Hfst; apply join_split_lines|].
  split.
  - rewrite <- (length_map fst), Hfst. apply length_split_lines.
  - rewrite Hsnd, length_split_lines.
    now replace (S (count_newlines s) - 1) with (count_newlines s) by lia.
Qed.

Section Rendering.

Variable JSON_parse : string -> option jsval.
Context {Parent : Type}.
Variable onFormUpdate : option (jsval -> jsval -> Parent -> result Parent).

Lemma apply_envelope_content now parsed (p p' : Parent) m :
  apply_envelope JSON_parse onFormUpdate now parsed p = Ok (m, p') ->
  truthy (prop parsed "message") = true ->
  content m = prop parsed "message".
Proof.
  unfold apply_envelope.
  destruct (get parsed "response_type") as [rt| |] eqn:Hrt; [|discriminate..].
  rewrite (get_after_get _ _ _ "message" Hrt). cbn [bind].
  intros H Htext.
  assert (Hor : forall d, js_or (prop parsed "message") d
                          = prop parsed "message")
    by (intros d; unfold js_or; now rewrite Htext).
  destruct (is_str rt "FORM_POPULATE").
  { rewrite (get_after_get _ _ _ "field_updates" Hrt) in H. cbn [bind] in H.
    match type of H with
    | bind ?e _ = _ => destruct e as [q| |]; [|discriminate..]
    end.
    cbn [bind] in H. injection H as <- <-. apply Hor. }
  destruct (is_str rt "FORM_UPDATE").
  { rewrite (get_after_get _ _ _ "field" Hrt),
            (get_after_get _ _ _ "value" Hrt) in H. cbn [bind] in H.
    match type of H with
    | bind ?e _ = _ => destruct e as [q| |]; [|discriminate..]
    end.
    cbn [bind] in H. unfold update_text in H. rewrite Htext in H.
    cbn [bind] in H. now injection H as <- <-. }
  destruct (is_str rt "ERROR"); injection H as <- <-; apply Hor.
Qed.

(** X26. A message that is no string breaks the rendering of the log. When
    an envelope of any type carries a truthy message that is not a string (a
    number, an object, a list), the effect appends it as the content as it
    is, and [formatMessage] raises a TypeError on that content. *)
Theorem non_string_message_breaks_rendering
    (now : nat) (r : response) (c c' : chat) (p p' : Parent) :
  truthy (payload r) = true ->
  differs_from_last r c = true ->
  truthy (prop (parse_payload JSON_parse (payload r)) "message") = true ->
  is_string (prop (parse_payload JSON_parse (payload r)) "message") = false ->
  effect JSON_parse onFormUpdate now (Some r) c p = Ok (c', p') ->
  exists m,
    c' = processed r m c
    /\ content m = prop (parse_payload JSON_parse (payload r)) "message"
    /\ formatMessage (content m) = Throw TypeError.
Proof.
  intros Htruthy Hnew Htext Hstr. unfold effect.
  rewrite Htruthy, Hnew. cbn [andb].
  destruct (apply_envelope _ _ _ _ _) as [[m q]| |] eqn:E; [|discriminate..].
  cbn [bind fst snd]. intros [= <- <-]. exists m.
  split; [reflexivity|].
  rewrite (apply_envelope_content _ _ _ _ _ E Htext).
  split; [reflexivity|].
  destruct (prop _ "message"); try discriminate Hstr; reflexivity.
Qed.

End Rendering.

Lemma non_string_message_breaks_rendering_witness :
  exists m,
    effect rejects_all (Some (handleFormUpdate 5)) 5
      (Some {| ref := 1; payload := JObj [("message", JNum "404")] |})
      (Chat.initial 0) (Form.initial "2025-01-15" "10:30")
    = Ok (processed {| ref := 1; payload := JObj [("message", JNum "404")] |}
            m (Chat.initial 0), Form.initial "2025-01-15" "10:30")
    /\ content m = JNum "404"
    /\ formatMessage (content m) = Throw TypeError.
Proof.
  destruct (non_string_message_breaks_rendering rejects_all
              (Some (handleFormUpdate 5)) 5
              {| ref := 1; payload := JObj [("message", JNum "404")] |}
              (Chat.initial 0) _ (Form.initial "2025-01-15" "10:30") _
              eq_refl eq_refl eq_refl eq_refl eq_refl)
    as (m & Hc & Hcontent & Hraise).
  exists m. split; [now rewrite <- Hc|]. split; assumption.
Defined.

(** ** The log and the gate over a session *)

Section Log.

Variable JSON_parse : string -> option jsval.

Lemma effect_appends_at_most_one {Parent : Type}
    (h : option (jsval -> jsval -> Parent -> result Parent))
    now r (c c' : chat) (p p' : Parent) :
  effect JSON_parse h now r c p = Ok (c', p') ->
  exists more, messages c' = (messages c ++ more)%list /\ length more <= 1.
Proof.
  destruct r as [r|]; cbn [effect].
  - destruct (truthy (payload r) && differs_from_last r c).
    + destruct (apply_envelope _ _ _ _ _) as [[m q]| |]; [|discriminate..].
      cbn [bind fst snd]. intros [= <- <-]. exists [m]. split; [reflexivity|].
      cbn. lia.
    + intros [= <- <-]. exists []. split; [now rewrite app_nil_r | cbn; lia].
  - intros [= <- <-]. exists []. split; [now rewrite app_nil_r | cbn; lia].
Qed.

Lemma step_appends_at_most_one now e (s s' : session) :
  step JSON_parse now e s = Ok s' ->
  exists more,
    messages (ui s') = (messages (ui s) ++ more)%list
    /\ length more <= 1
    /\ issued s <= issued s' <= S (issued s).
Proof.
  destruct e as [text| |token h|]; cbn [step].
  - intros [= <-]. exists []. cbn. rewrite app_nil_r. repeat split; lia.
  - unfold handleSendMessage_begin.
    destruct (_ || _); intros [= <-]; cbn.
    + exists []. rewrite app_nil_r. cbn. repeat split; lia.
    + eexists [_]. cbn. repeat split; lia.
  - destruct (deps_changed _ _).
    + unfold render_effect. cbn [redux ui hcp issued].
      destruct (effect _ _ _ _ _ _) as [[c' f']| |] eqn:E; [|discriminate..].
      cbn [bind fst snd]. intros [= <-]. cbn [ui issued].
      destruct (effect_appends_at_most_one _ _ _ _ _ _ _ E) as (more & Hm & Hl).
      exists more. split; [|split; [exact Hl | lia]].
      rewrite Hm. now destruct (chatWithAgentAsync h).
    + intros [= <-]. exists []. cbn [ui issued]. rewrite app_nil_r.
      split; [now destruct (chatWithAgentAsync h) | cbn; lia].
  - intros [= <-]. exists []. cbn. rewrite app_nil_r. repeat split; lia.
Qed.

(** X27. The message log only grows, and by at most one message an event:
    over any run that does not raise, the messages at the start are still
    there, in place and unchanged, at the end, followed by at most as many
    new ones as there were events; and at most one request is issued an
    event. *)
Theorem log_is_append_only (trace : list (nat * event)) :
  forall s s',
    run JSON_parse trace s = Ok s' ->
    exists more,
      messages (ui s') = (messages (ui s) ++ more)%list
      /\ length more <= length trace
      /\ issued s <= issued s' <= issued s + length trace.
Proof.
  induction trace as [|[now e] trace IH]; intros s s'; cbn [run].
  - intros [= <-]. exists []. rewrite app_nil_r. cbn. repeat split; lia.
  - destruct (step JSON_parse now e s) as [s1| |] eqn:E; [|discriminate..].
    cbn [bind]. intros Hrun.
    destruct (step_appends_at_most_one _ _ _ _ E) as (m1 & H1 & L1 & I1).
    destruct (IH _ _ Hrun) as (m2 & H2 & L2 & I2).
    exists (m1 ++ m2)%list. rewrite H2, H1, <- app_assoc.
    split; [reflexivity|]. rewrite length_app. cbn [length]. lia.
Qed.

End Log.

Lemma log_is_append_only_witness :
  exists s' more,
    run rejects_all three_requests (start 0 "2025-01-15" "10:30") = Ok s'
    /\ messages (ui s')
       = (messages (ui (start 0 "2025-01-15" "10:30")) ++ more)%list
    /\ length more <= length three_requests.
Proof.
  destruct (run rejects_all three_requests (start 0 "2025-01-15" "10:30"))
    as [s'| |] eqn:E; [|vm_compute in E; discriminate E..].
  destruct (log_is_append_only rejects_all three_requests _ _ E)
    as (more & Hlog & Hlen & _).
  exists s', more. repeat split; assumption.
Defined.

(** The send button is disabled exactly when [handleSendMessage] would
    return at its gate, so that the Enter key, which calls it without the
    button, sends nothing the button would not. When the gate is passed, the
    text is logged as typed, white space included, the gate closes and the
    button is disabled. *)
Lemma send_button_mirrors_gate (now : nat) (c : chat) :
  (send_disabled c = true <-> handleSendMessage_begin now c = None)
  /\ (forall c', handleSendMessage_begin now c = Some c' ->
        exists m, messages c' = (messages c ++ [m])%list
                  /\ type m = user /\ content m = JStr (inputMessage c)
                  /\ isLoading c' = true /\ send_disabled c' = true
                  /\ lastProcessedResponse c' = lastProcessedResponse c).
Proof.
  unfold send_disabled, handleSendMessage_begin.
  rewrite orb_comm.
  destruct (_ || _).
  - split; [split; reflexivity|]. discriminate.
  - split; [split; discriminate|]. intros c' [= <-]. eexists.
    repeat split.
Qed.

(** ** The slice *)

Lemma get_is_prop v k x : get v k = Ok x -> x = prop v k.
Proof. unfold prop. now intros ->. Qed.

Lemma findIndex_found payload l : forall k i,
  Slice.findIndex payload l k = Ok (Some i) ->
  exists n x,
    i = k + n /\ l !! n = Some x /\ has_id_of payload x = true
    /\ forall m y, m < n -> l !! m = Some y -> has_id_of payload y = false.
Proof.
  induction l as [|int rest IH]; intros k i; cbn [Slice.findIndex];
    [discriminate|].
  destruct (get int "id") as [id| |] eqn:Hid; [|discriminate..].
  destruct (get payload "id") as [wanted| |] eqn:Hw; [|discriminate..].
  cbn [bind]. apply get_is_prop in Hid, Hw. subst id wanted.
  fold (has_id_of payload int).
  destruct (has_id_of payload int) eqn:Hmatch.
  - intros [= <-]. exists 0, int. repeat split; [lia | assumption |].
    intros m y Hm. lia.
  - intros Hrest. destruct (IH _ _ Hrest) as (n & x & -> & Hx & Hmx & Hfirst).
    exists (S n), x. repeat split; [lia | exact Hx | exact Hmx |].
    intros [|m] y Hm Hy; [now injection Hy as <-|].
    apply (Hfirst m y); [lia | exact Hy].
Qed.

Lemma findIndex_missing payload l : forall k,
  Slice.findIndex payload l k = Ok None ->
  Forall (fun y => has_id_of payload y = false) l.
Proof.
  induction l as [|int rest IH]; intros k; cbn [Slice.findIndex];
    [constructor|].
  destruct (get int "id") as [id| |] eqn:Hid; [|discriminate..].
  destruct (get payload "id") as [wanted| |] eqn:Hw; [|discriminate..].
  cbn [bind]. apply get_is_prop in Hid, Hw. subst id wanted.
  fold (has_id_of payload int).
  destruct (has_id_of payload int) eqn:Hmatch; [discriminate|].
  intros Hrest. constructor; [exact Hmatch | exact (IH _ Hrest)].
Qed.

(** X29. A fulfilled update replaces the first interaction of the list that
    has the id of the payload, and that one only: the list keeps its length
    and every other place. When no interaction has that id the list is left
    as it is, and the update is lost without notice. *)
Theorem update_replaces_first_match
    (s s' : Slice.state) (r : response) (l : list jsval) :
  Slice.interactions s = JArr l ->
  Slice.reducer s (Slice.fulfilled Slice.updateInteraction r) = Ok s' ->
  Slice.status s' = succeeded
  /\ ((Forall (fun y => has_id_of (payload r) y = false) l
       /\ Slice.interactions s' = JArr l)
      \/ exists n x,
           l !! n = Some x
           /\ has_id_of (payload r) x = true
           /\ (forall m y, m < n -> l !! m = Some y ->
                           has_id_of (payload r) y = false)
           /\ Slice.interactions s' = JArr (<[n := payload r]> l)
           /\ length (<[n := payload r]> l) = length l
           /\ (forall m, m <> n -> <[n := payload r]> l !! m = l !! m)).
Proof.
  intros Hl. cbn [Slice.reducer]. rewrite Hl.
  destruct (Slice.findIndex (payload r) l 0) as [[i|]| |] eqn:E;
    cbn [bind]; [| |discriminate..]; intros [= <-]; cbn [Slice.status Slice.interactions];
    (split; [reflexivity|]).
  - right. destruct (findIndex_found _ _ _ _ E) as (n & x & -> & Hx & Hm & Hfirst).
    exists n, x. cbn [plus]. repeat split; try assumption.
    + apply length_insert.
    + intros m Hne. apply list_lookup_insert_ne. congruence.
  - left. split; [exact (findIndex_missing _ _ _ E) | reflexivity].
Qed.

Lemma update_replaces_first_match_witness :
  let old := JObj [("id", JNum "7"); ("sentiment", JStr "Neutral")] in
  let other := JObj [("id", JNum "8")] in
  let new := JObj [("id", JNum "7"); ("sentiment", JStr "Positive")] in
  exists s',
    Slice.reducer
      {| Slice.interactions := JArr [other; old; old];
         Slice.chatResponse := None; Slice.status := loading;
         Slice.error := JNull |}
      (Slice.fulfilled Slice.updateInteraction {| ref := 1; payload := new |})
    = Ok s'
    /\ Slice.interactions s' = JArr [other; new; old].
Proof.
  intros old other new.
  set (s0 := {| Slice.interactions := JArr [other; old; old];
                Slice.chatResponse := None; Slice.status := loading;
                Slice.error := JNull |}).
  set (r := {| ref := 1; payload := new |}).
  destruct (Slice.reducer s0 (Slice.fulfilled Slice.updateInteraction r))
    as [s'| |] eqn:E; [|discriminate E..].
  exists s'. split; [reflexivity|].
  destruct (update_replaces_first_match s0 s' r [other; old; old] eq_refl E)
    as (_ & [[Hnone _]|(n & x & Hx & Hid & Hfirst & Hnew & _)]).
  - inversion Hnone as [|? ? _ Htail]; subst.
    inversion Htail as [|? ? Hold _]; subst. discriminate Hold.
  - destruct n as [|[|[|n]]]; cbn in Hx; try discriminate Hx.
    + injection Hx as <-. discriminate Hid.
    + exact Hnew.
    + exfalso. assert (H := Hfirst 1 old ltac:(lia) eq_refl). discriminate H.
Defined.

Example update_without_id_replaces_first_without_id :
  Slice.reducer
    {| Slice.interactions := JArr [JObj [("hcp_name", JStr "Dr. Lee")]];
       Slice.chatResponse := None; Slice.status := loading;
       Slice.error := JNull |}
    (Slice.fulfilled Slice.updateInteraction
       {| ref := 1; payload := JObj [("detail", JStr "Not found")] |})
  = Ok {| Slice.interactions := JArr [JObj [("detail", JStr "Not found")]];
          Slice.chatResponse := None; Slice.status := succeeded;
          Slice.error := JNull |}.
Proof. reflexivity. Qed.

Lemma reducer_frame (s s' : Slice.state) (a : Slice.action) :
  Slice.reducer s a = Ok s' ->
  (not_rejected a -> Slice.error s' = Slice.error s)
  /\ (not_chat_fulfilled a -> Slice.chatResponse s' = Slice.chatResponse s).
Proof.
  destruct a as [t|t r|t e]; cbn [Slice.reducer].
  - intros [= <-]. split; reflexivity.
  - destruct t; try (destruct (Slice.interactions s); try discriminate);
      try (destruct (Slice.findIndex _ _ _) as [i| |]; [|discriminate..];
           cbn [bind]);
      intros [= <-]; split; try reflexivity; contradiction.
  - intros [= <-]. split; [contradiction | reflexivity].
Qed.

(** X30. The slice never clears an error and only a chat response changes
    [chatResponse]. Over any sequence of actions that does not raise: without
    a rejection, [error] ends as it began, so that the error of a failed
    request is still there after later requests succeed; and without a
    fulfilled chat request, [chatResponse] ends as it began, so that sending
    the form or loading a history does not run the effect of the assistant
    again. *)
Theorem slice_keeps_error_and_response (actions : list Slice.action) :
  forall s s',
    Slice.reduce_all s actions = Ok s' ->
    (Forall not_rejected actions -> Slice.error s' = Slice.error s)
    /\ (Forall not_chat_fulfilled actions ->
        Slice.chatResponse s' = Slice.chatResponse s
        /\ deps_changed (Slice.chatResponse s) (Slice.chatResponse s') = false).
Proof.
  induction actions as [|a actions IH]; intros s s'; cbn [Slice.reduce_all].
  - intros [= <-]. split; [reflexivity|]. split; [reflexivity|].
    apply deps_unchanged.
  - destruct (Slice.reducer s a) as [s1| |] eqn:E; [|discriminate..].
    cbn [bind]. intros Hrest.
    destruct (reducer_frame _ _ _ E) as [He Hc].
    destruct (IH _ _ Hrest) as [IHe IHc]. split.
    + intros Hall. inversion Hall; subst. rewrite IHe, He; auto.
    + intros Hall. inversion Hall as [|? ? Ha Hrest']; subst.
      destruct (IHc Hrest') as [Heq _]. rewrite Heq, (Hc Ha).
      split; [reflexivity | apply deps_unchanged].
Qed.

Lemma slice_keeps_error_and_response_witness :
  exists s',
    Slice.reduce_all Slice.initialState
      [ Slice.pending Slice.logInteraction;
        Slice.rejected Slice.logInteraction (JStr "Service unavailable");
        Slice.pending Slice.logInteraction;
        Slice.fulfilled Slice.logInteraction
          {| ref := 1; payload := JObj [("id", JNum "1")] |} ] = Ok s'
    /\ Slice.status s' = succeeded
    /\ Slice.error s' = JStr "Service unavailable"
    /\ Slice.chatResponse s' = None.
Proof.
  destruct (Slice.reducer (Slice.initialState)
              (Slice.pending Slice.logInteraction)) as [s1| |] eqn:E1;
    try discriminate E1.
  destruct (Slice.reducer s1
              (Slice.rejected Slice.logInteraction (JStr "Service unavailable")))
    as [s2| |] eqn:E2; [|discriminate E2..].
  destruct (Slice.reduce_all s2
              [ Slice.pending Slice.logInteraction;
                Slice.fulfilled Slice.logInteraction
                  {| ref := 1; payload := JObj [("id", JNum "1")] |} ])
    as [s'| |] eqn:E3.
  - exists s'. cbn [Slice.reduce_all]. rewrite E1. cbn [bind]. rewrite E2.
    cbn [bind]. split; [exact E3|].
    destruct (slice_keeps_error_and_response _ _ _ E3) as [Herr Hresp].
    rewrite Herr by (repeat constructor).
    destruct Hresp as [-> _]; [repeat constructor|].
    injection E1 as <-. injection E2 as <-.
    cbn in E3. injection E3 as <-. repeat split.
  - injection E1 as <-. injection E2 as <-. discriminate E3.
  - injection E1 as <-. injection E2 as <-. discriminate E3.
Defined.

(** The chat cases of the slice are the reducer of the session, and touch no
    interaction. *)
Lemma chat_cases_refine (s : Slice.state) (a : Chat.action) :
  exists s',
    Slice.reducer s (Slice.chat_action a) = Ok s'
    /\ Slice.chat_view s' = Chat.reducer (Slice.chat_view s) a
    /\ Slice.interactions s' = Slice.interactions s.
Proof. destruct a; eexists; repeat split. Qed.

(** X28. A request that fails leaves the chat locked, whatever state it was
    sent from: once a submission has passed the gate and its request is
    rejected, with or without a response body, nothing is appended, the gate
    stays closed, and whatever is typed next every submission returns at the
    gate. *)
Theorem rejected_request_locks_chat
    (JSON_parse : string -> option jsval)
    (now later token : nat) (data : option jsval) (s s1 : session) :
  handleSendMessage_begin now (ui s) <> None ->
  step JSON_parse now Submitted s = Ok s1 ->
  exists s2,
    step JSON_parse later (Settled token (HttpFailed data)) s1 = Ok s2
    /\ isLoading (ui s2) = true
    /\ messages (ui s2) = messages (ui s1)
    /\ forall at_ text, handleSendMessage_begin at_
          {| messages := messages (ui s2); inputMessage := text;
             isLoading := isLoading (ui s2);
             lastProcessedResponse := lastProcessedResponse (ui s2) |} = None.
Proof. apply rejected_request_never_reopens_gate. Qed.

Lemma rejected_request_locks_chat_witness :
  exists s0 s1 s2,
    run rejects_all [(0, Typed "hello")] (start 0 "2025-01-15" "10:30") = Ok s0
    /\ step rejects_all 1 Submitted s0 = Ok s1
    /\ step rejects_all 9
         (Settled 1 (HttpFailed (Some (JStr "Internal Server Error")))) s1
       = Ok s2
    /\ isLoading (ui s2) = true.
Proof.
  destruct (run rejects_all [(0, Typed "hello")] (start 0 "2025-01-15" "10:30"))
    as [s0| |] eqn:E0; [|discriminate E0..].
  assert (Hopen : handleSendMessage_begin 1 (ui s0) <> None).
  { cbn in E0. injection E0 as <-. discriminate. }
  destruct (step rejects_all 1 Submitted s0) as [s1| |] eqn:E1.
  - destruct (rejected_request_locks_chat rejects_all 1 9 1
                (Some (JStr "Internal Server Error")) s0 s1 Hopen E1)
      as (s2 & Hstep & Hlock & _).
    exists s0, s1, s2. repeat split; assumption.
  - cbn in E0. injection E0 as <-. discriminate E1.
  - cbn in E0. injection E0 as <-. discriminate E1.
Defined.
